(** * Fake-news detector: verdict synthesis and analysis pipeline

    A shallow embedding of the Python services under [server/app]:

    - [services/synthesis_service.py]  ([SynthesisService.synthesize]),
    - [services/fact_check_service.py] ([FactCheckService.check_claims]),
    - [services/ml_service.py]         ([MLService.predict]),
    - [routers/analyze.py]             ([analyze_text]).

    Python [float] is IEEE-754 binary64; it is modelled by Rocq's primitive
    [float], whose operations are the same binary64 operations (round to
    nearest, ties to even).  Python [int] counts are [nat].  Python [str] is
    modelled by byte strings ([string]); [lower] is the ASCII case mapping,
    which is what [str.lower] does on ASCII text.  Dictionaries with a fixed
    set of keys are records; the process environment is a finite map.
    Calls that leave the process (the clock, the classifier, the HTTP
    client) are threaded through an explicit [world]. *)

From Stdlib Require Import Floats ZArith Uint63 String Ascii List Bool Lia.
From stdpp Require Import gmap strings.
Import ListNotations.

#[local] Set Warnings "-inexact-float".
#[local] Open Scope string_scope.

(** ** Python strings *)

Module PyStr.

Definition is_upper (c : ascii) : bool :=
  Nat.leb 65 (nat_of_ascii c) && Nat.leb (nat_of_ascii c) 90.

Definition lower_char (c : ascii) : ascii :=
  if is_upper c then ascii_of_nat (nat_of_ascii c + 32) else c.

(** [s.lower()] *)
Fixpoint lower (s : string) : string :=
  match s with
  | EmptyString => EmptyString
  | String c s' => String (lower_char c) (lower s')
  end.

(** [sub in s]: [sub] occurs in [s] as a contiguous substring. *)
Fixpoint contains (sub s : string) : bool :=
  String.prefix sub s
  || match s with
     | EmptyString => false
     | String _ s' => contains sub s'
     end.

(** [s[:n]] for a non-negative [n]. *)
Fixpoint take (n : nat) (s : string) : string :=
  match n, s with
  | S n', String c s' => String c (take n' s')
  | _, _ => EmptyString
  end.

(** An f-string, kept as its segments: literal text and the formatted
    fields, each with its value and format. *)
Inductive piece :=
| Lit (s : string)       (* literal text *)
| FStr (s : string)      (* {s}          *)
| FInt (n : nat)         (* {n}          *)
| FPct0 (x : float).     (* {x:.0%}      *)

Definition fstring := list piece.

End PyStr.

(** ** Python numbers *)

Module PyNum.

(** Conversion of an [int] to [float] in [n * 0.1].  The counts converted
    here are bounded by the length of a list, which is below [2^63] in
    CPython; on that range [of_uint63] is the correctly rounded
    conversion. *)
Definition float_of_int (n : nat) : float :=
  of_uint63 (Uint63.of_Z (Z.of_nat n)).

(** The builtin [min(a, b)] on two floats: [b] replaces [a] only when
    [b < a]. *)
Definition min (a b : float) : float :=
  if (b <? a)%float then b else a.

(** Membership of the closed unit interval, [0 <= x <= 1]. *)
Definition in_unit (x : float) : Prop :=
  (0 <=? x)%float = true /\ (x <=? 1)%float = true.

End PyNum.

(** ** Fact-check results

    The dictionaries built by [check_claims] and read by [synthesize]. *)

Record fact_check := {
  fc_claim : string;
  fc_claimant : string;
  fc_rating : string;
  fc_source : string;
  fc_url : option string
}.

(** ** services/synthesis_service.py *)

Module SynthesisService.

Import PyStr.

(** The dictionary returned by [synthesize]. *)
Record result := {
  verdict : string;
  confidence : float;
  reasoning : fstring
}.

Definition false_ratings : list string :=
  ["false"; "pants on fire"; "mostly false"].

Definition true_ratings : list string :=
  ["true"; "mostly true"; "correct"].

(** [any(rating in fc['rating'].lower() for rating in ratings)] *)
Definition any_rating (ratings : list string) (fc : fact_check) : bool :=
  existsb (fun rating => contains rating (lower (fc_rating fc))) ratings.

(** [sum(1 for fc in fact_checks if cond(fc))] *)
Definition sum_1_if (cond : fact_check -> bool)
                    (fact_checks : list fact_check) : nat :=
  list_sum (List.map (fun _ => 1) (List.filter cond fact_checks)).

Definition false_count (fact_checks : list fact_check) : nat :=
  sum_1_if (any_rating false_ratings) fact_checks.

Definition true_count (fact_checks : list fact_check) : nat :=
  sum_1_if (any_rating true_ratings) fact_checks.

(** The model-only rules at the end of [synthesize], reached when the
    [if fact_checks:] block is skipped or returns nothing. *)
Definition ml_rules (ml_prediction : string) (ml_confidence : float)
  : result :=
  if (0.85 <? ml_confidence)%float then
    {| verdict := ml_prediction;
       confidence := ml_confidence;
       reasoning :=
         [Lit "No fact-checks found. Our AI model predicts this is ";
          FStr ml_prediction; Lit " with high confidence (";
          FPct0 ml_confidence; Lit ")."] |}
  else if (0.65 <? ml_confidence)%float then
    {| verdict := ml_prediction;
       confidence := ml_confidence;
       reasoning :=
         [Lit "No fact-checks found. Our AI model suggests this is likely ";
          FStr ml_prediction; Lit " ("; FPct0 ml_confidence;
          Lit " confidence)."] |}
  else
    {| verdict := "UNCERTAIN";
       confidence := ml_confidence;
       reasoning :=
         [Lit "No definitive fact-checks found, and our AI model has moderate confidence (";
          FPct0 ml_confidence;
          Lit "). This claim requires more context or investigation."] |}.

Definition synthesize (ml_prediction : string) (ml_confidence : float)
                      (fact_checks : list fact_check) : result :=
  match fact_checks with
  | _ :: _ =>
    let false_count := false_count fact_checks in
    let true_count := true_count fact_checks in
    if Nat.ltb true_count false_count && Nat.ltb 0 false_count then
      {| verdict := "FAKE";
         confidence :=
           PyNum.min 0.95 (0.7 + PyNum.float_of_int false_count * 0.1)%float;
         reasoning :=
           [Lit "Professional fact-checkers found this claim to be false. ";
            FInt false_count;
            Lit " fact-checker(s) rated it as false or misleading."] |}
    else if Nat.ltb false_count true_count && Nat.ltb 0 true_count then
      {| verdict := "REAL";
         confidence :=
           PyNum.min 0.95 (0.7 + PyNum.float_of_int true_count * 0.1)%float;
         reasoning :=
           [Lit "Professional fact-checkers verified this claim as true. ";
            FInt true_count;
            Lit " fact-checker(s) confirmed its accuracy."] |}
    else if Nat.eqb false_count true_count
            && (0.8 <? ml_confidence)%float then
      {| verdict := ml_prediction;
         confidence := (ml_confidence * 0.85)%float;
         reasoning :=
           [Lit "Fact-checkers provided mixed signals. Our AI model predicts this is ";
            FStr ml_prediction; Lit " with "; FPct0 ml_confidence;
            Lit " confidence."] |}
    else if Nat.eqb false_count true_count then
      {| verdict := "UNCERTAIN";
         confidence := 0.5%float;
         reasoning :=
           [Lit "Fact-checkers provided conflicting assessments, and our AI model is not highly confident. More investigation needed."] |}
    else ml_rules ml_prediction ml_confidence
  | [] => ml_rules ml_prediction ml_confidence
  end.

End SynthesisService.

(** ** Exceptions and effects

    The three calls that leave the process are the clock ([time.time]), the
    classifier ([torch] inference inside [MLService.predict]) and the HTTP
    client ([httpx.AsyncClient.get]).  A [world] fixes how they behave and
    records what was asked of them; a computation is a function of the
    world that returns a value or raises. *)

Module Py.

Inductive exn :=
| TimeoutException (msg : string)            (* httpx.TimeoutException *)
| Exception (msg : string)                   (* any other Exception    *)
| HTTPException (status_code : Z) (detail : string).

(** [str(e)] *)
Definition str (e : exn) : string :=
  match e with
  | TimeoutException msg => msg
  | Exception msg => msg
  | HTTPException _ detail => detail
  end.

(** What the Fact Check Tools API sends back, as far as [check_claims]
    reads it; an absent key is [None]. *)
Record publisher_json := { name : option string }.

Record review_json := {
  textualRating : option string;
  publisher : option publisher_json;
  url : option string
}.

Record claim_json := {
  text : option string;
  claimant : option string;
  claimReview : option (list review_json)
}.

Record data_json := { claims : option (list claim_json) }.

(** [client.get(url, params=..., timeout=...)] *)
Record request := {
  req_url : string;
  req_params : list (string * string);
  req_timeout : float
}.

(** The response object: its status and what [response.json()] does. *)
Record response := {
  status_code : Z;
  json : exn + data_json
}.

(** What the classifier computes for a text: the two softmax
    probabilities and the index [torch.argmax] picks. *)
Record inference := {
  probs_0 : float;
  probs_1 : float;
  pred_class : nat
}.

Record world := {
  clock : nat -> float;               (* successive values of time.time() *)
  ticks : nat;                        (* readings taken so far            *)
  model : string -> exn + inference;  (* the classifier                   *)
  network : request -> exn + response;(* the remote API                   *)
  sent : list request                 (* requests issued, oldest first    *)
}.

Definition M (A : Type) : Type := world -> (exn + A) * world.

Definition ret {A} (a : A) : M A := fun w => (inr a, w).

Definition raise {A} (e : exn) : M A := fun w => (inl e, w).

Definition bind {A B} (m : M A) (k : A -> M B) : M B :=
  fun w =>
    match m w with
    | (inr a, w') => k a w'
    | (inl e, w') => (inl e, w')
    end.

(** [try: m  except Exception as e: h e] *)
Definition try_except {A} (m : M A) (h : exn -> M A) : M A :=
  fun w =>
    match m w with
    | (inr a, w') => (inr a, w')
    | (inl e, w') => h e w'
    end.

(** A value that is already computed or an exception to raise. *)
Definition lift {A} (r : exn + A) : M A := fun w => (r, w).

Definition time_time : M float :=
  fun w =>
    (inr (clock w (ticks w)),
     {| clock := clock w; ticks := S (ticks w); model := model w;
        network := network w; sent := sent w |}).

Definition run_model (text : string) : M inference :=
  fun w => (model w text, w).

Definition client_get (r : request) : M response :=
  fun w =>
    (network w r,
     {| clock := clock w; ticks := ticks w; model := model w;
        network := network w; sent := sent w ++ [r] |}).

End Py.

Declare Scope py_scope.
Delimit Scope py_scope with py.
Notation "x <- m ;; k" := (Py.bind m (fun x => k))
  (at level 100, m at next level, right associativity) : py_scope.

(** ** services/ml_service.py *)

Module MLService.

Import Py.

(** The dictionary returned by [predict]. *)
Record prediction_dict := {
  prediction : string;
  confidence : float;
  probabilities : float * float      (* "FAKE", "REAL" *)
}.

(** [probs[0][pred_class]] *)
Definition probs_at (i : inference) : float :=
  match pred_class i with
  | 0 => probs_0 i
  | _ => probs_1 i
  end.

(** ["REAL" if pred_class == 1 else "FAKE"] *)
Definition label (i : inference) : string :=
  if Nat.eqb (pred_class i) 1 then "REAL" else "FAKE".

(** [predict]: tokenising and running the network is [run_model]; an
    exception raised there (or by [initialize]) is logged and re-raised. *)
Definition predict (text : string) : M prediction_dict :=
  try_except
    (i <- run_model text ;;
     let confidence := probs_at i in
     let label := label i in
     ret {| prediction := label;
            confidence := confidence;
            probabilities := (probs_0 i, probs_1 i) |})%py
    (fun e => raise e).

End MLService.

(** ** services/fact_check_service.py *)

Module FactCheckService.

Import Py.

Record t := {
  api_key : string;
  base_url : string
}.

(** [os.getenv(key, default)] *)
Definition getenv (environ : gmap string string) (key default : string)
  : string :=
  match environ !! key with
  | Some v => v
  | None => default
  end.

(** [__init__] *)
Definition init (environ : gmap string string) : t :=
  {| api_key := getenv environ "GOOGLE_FACT_CHECK_API_KEY" "";
     base_url :=
       "https://factchecktools.googleapis.com/v1alpha1/claims:search" |}.

(** [d.get(key, default)] on an optional field. *)
Definition get {A} (field : option A) (default : A) : A :=
  match field with
  | Some v => v
  | None => default
  end.

(** The dictionary appended for one review of one claim. *)
Definition review_entry (claim : claim_json) (review : review_json)
  : fact_check :=
  {| fc_claim := get (text claim) "";
     fc_claimant := get (claimant claim) "Unknown";
     fc_rating := get (textualRating review) "Unknown";
     fc_source :=
       get (name (get (publisher review) {| name := None |})) "Unknown";
     fc_url := url review |}.

(** The two nested loops over [data["claims"][:5]] and the reviews of each
    claim. *)
Definition parse_results (data : data_json) : list fact_check :=
  match claims data with
  | Some cs =>
    List.flat_map
      (fun claim =>
         List.map (review_entry claim) (get (claimReview claim) []))
      (List.firstn 5 cs)
  | None => []
  end.

Definition is_empty (s : string) : bool :=
  match s with
  | EmptyString => true
  | String _ _ => false
  end.

(** The request of [check_claims]: the first 100 characters of the text
    as the query, with a timeout of ten seconds. *)
Definition search_request (self : t) (text : string) : request :=
  let query := PyStr.take 100 text in
  {| req_url := base_url self;
     req_params :=
       [("query", query); ("key", api_key self); ("languageCode", "en")];
     req_timeout := 10.0%float |}.

Definition check_claims (self : t) (text : string) : M (list fact_check) :=
  if is_empty (api_key self) || String.eqb (api_key self) "your_api_key_here"
  then ret []
  else
    try_except
      (response <- client_get (search_request self text) ;;
       if negb (Z.eqb (status_code response) 200) then ret []
       else
         data <- lift (json response) ;;
         ret (parse_results data))%py
      (fun e =>
         match e with
         | TimeoutException _ => ret []
         | _ => ret []
         end).

End FactCheckService.

(** ** routers/analyze.py *)

Module Analyze.

(** The pydantic model [FactCheckResult]. *)
Record FactCheckResult := {
  claim : string;
  claimant : option string;
  rating : string;
  source : string;
  url : option string
}.

(** The pydantic model [AnalyzeResponse]. *)
Record AnalyzeResponse := {
  verdict : string;
  confidence : float;
  ml_prediction : string;
  ml_confidence : float;
  fact_checks : list FactCheckResult;
  reasoning : PyStr.fstring;
  processing_time_ms : float
}.

(** A dictionary of [check_claims] read as a [FactCheckResult]. *)
Definition FactCheckResult_of (fc : fact_check) : FactCheckResult :=
  {| claim := fc_claim fc;
     claimant := Some (fc_claimant fc);
     rating := fc_rating fc;
     source := fc_source fc;
     url := fc_url fc |}.

(** [Field(..., ge=0, le=1)] *)
Definition ge_0_le_1 (x : float) : bool :=
  (0 <=? x)%float && (x <=? 1)%float.

(** The constructor [AnalyzeResponse(...)]: pydantic validates the two
    bounded fields and raises a [ValidationError] (an [Exception]; its long
    message is abbreviated here) when one is out of range. *)
Definition AnalyzeResponse_new
    (verdict : string) (confidence : float) (ml_prediction : string)
    (ml_confidence : float) (fact_checks : list fact_check)
    (reasoning : PyStr.fstring) (processing_time_ms : float)
  : Py.M AnalyzeResponse :=
  if ge_0_le_1 confidence && ge_0_le_1 ml_confidence then
    Py.ret {| verdict := verdict;
              confidence := confidence;
              ml_prediction := ml_prediction;
              ml_confidence := ml_confidence;
              fact_checks := List.map FactCheckResult_of fact_checks;
              reasoning := reasoning;
              processing_time_ms := processing_time_ms |}
  else Py.raise (Py.Exception "validation error for AnalyzeResponse").

(** [analyze_text], for the validated [request.text].  The service
    singletons of the source are [MLService.predict], the instance
    [fact_check_service] and [SynthesisService.synthesize]. *)
Definition analyze_text (fact_check_service : FactCheckService.t)
                        (text : string) : Py.M AnalyzeResponse :=
  (start_time <- Py.time_time ;;
   Py.try_except
     (ml_result <- MLService.predict text ;;
      fact_checks <- FactCheckService.check_claims fact_check_service text ;;
      let final_verdict :=
        SynthesisService.synthesize
          (MLService.prediction ml_result)
          (MLService.confidence ml_result)
          fact_checks in
      now <- Py.time_time ;;
      let processing_time := ((now - start_time) * 1000)%float in
      AnalyzeResponse_new
        (SynthesisService.verdict final_verdict)
        (SynthesisService.confidence final_verdict)
        (MLService.prediction ml_result)
        (MLService.confidence ml_result)
        fact_checks
        (SynthesisService.reasoning final_verdict)
        processing_time)
     (fun e =>
        Py.raise
          (Py.HTTPException 500 ("Analysis failed: " ++ Py.str e))))%py.

End Analyze.

(** ** Derived notions used to state the properties *)

Module Tally.

Import SynthesisService.

(** An item whose rating matches both substring sets. *)
Definition matches_both (fc : fact_check) : bool :=
  any_rating false_ratings fc && any_rating true_ratings fc.

(** An item whose rating matches neither set (an undetermined rating). *)
Definition matches_neither (fc : fact_check) : bool :=
  negb (any_rating false_ratings fc) && negb (any_rating true_ratings fc).

Definition both_count (fact_checks : list fact_check) : nat :=
  sum_1_if matches_both fact_checks.

Definition neither_count (fact_checks : list fact_check) : nat :=
  sum_1_if matches_neither fact_checks.

(** A fact-check dictionary with a given rating. *)
Definition rated (rating : string) : fact_check :=
  {| fc_claim := "claim";
     fc_claimant := "Unknown";
     fc_rating := rating;
     fc_source := "Unknown";
     fc_url := None |}.

End Tally.

(** Situations of the analysis pipeline named by the properties. *)

Module Scenarios.

(** The retrieval call fails: it raises (a timeout or any other
    exception), answers with a status other than 200, or its body cannot be
    decoded. *)
Definition degraded (outcome : Py.exn + Py.response) : bool :=
  match outcome with
  | inl _ => true
  | inr response =>
    negb (Z.eqb (Py.status_code response) 200)
    || match Py.json response with
       | inl _ => true
       | inr _ => false
       end
  end.

(** The same world with another remote API. *)
Definition with_network (w : Py.world)
    (network : Py.request -> Py.exn + Py.response) : Py.world :=
  {| Py.clock := Py.clock w; Py.ticks := Py.ticks w; Py.model := Py.model w;
     Py.network := network; Py.sent := Py.sent w |}.

(** A remote API that answers every search with success and no claim. *)
Definition no_results (_ : Py.request) : Py.exn + Py.response :=
  inr {| Py.status_code := 200;
         Py.json := inr {| Py.claims := None |} |}.

(** A remote API that never answers in time. *)
Definition times_out (_ : Py.request) : Py.exn + Py.response :=
  inl (Py.TimeoutException "timed out").

(** The variable [GOOGLE_FACT_CHECK_API_KEY] is unset, empty or the
    placeholder. *)
Definition not_configured (environ : gmap string string) : Prop :=
  environ !! "GOOGLE_FACT_CHECK_API_KEY" = None
  \/ environ !! "GOOGLE_FACT_CHECK_API_KEY" = Some ""
  \/ environ !! "GOOGLE_FACT_CHECK_API_KEY" = Some "your_api_key_here".

(** A world at its start: a clock that advances by a quarter of a second
    per reading, a classifier and a remote API. *)
Definition start (model : string -> Py.exn + Py.inference)
    (network : Py.request -> Py.exn + Py.response) : Py.world :=
  {| Py.clock := fun n => (100 + PyNum.float_of_int n * 0.25)%float;
     Py.ticks := 0;
     Py.model := model;
     Py.network := network;
     Py.sent := [] |}.

(** A classifier that answers REAL with probability 0.9. *)
Definition confident_real (_ : string) : Py.exn + Py.inference :=
  inr {| Py.probs_0 := 0.1; Py.probs_1 := 0.9; Py.pred_class := 1 |}.

(** A classifier that fails. *)
Definition broken_model (_ : string) : Py.exn + Py.inference :=
  inl (Py.Exception "model not loaded").

(** The response to a request decided by the model's inference [i] alone:
    the outcome of [synthesize] on the empty evidence list, no fact-check,
    and the time elapsed between the two readings of the clock. *)
Definition ml_only_response (i : Py.inference) (w : Py.world)
  : Analyze.AnalyzeResponse :=
  let final_verdict :=
    SynthesisService.synthesize (MLService.label i) (MLService.probs_at i) []
  in
  {| Analyze.verdict := SynthesisService.verdict final_verdict;
     Analyze.confidence := SynthesisService.confidence final_verdict;
     Analyze.ml_prediction := MLService.label i;
     Analyze.ml_confidence := MLService.probs_at i;
     Analyze.fact_checks := [];
     Analyze.reasoning := SynthesisService.reasoning final_verdict;
     Analyze.processing_time_ms :=
       ((Py.clock w (S (Py.ticks w)) - Py.clock w (Py.ticks w)) * 1000)%float
  |}.

(** A service instance created in an environment that sets the variable. *)
Definition configured : FactCheckService.t :=
  FactCheckService.init (<["GOOGLE_FACT_CHECK_API_KEY" := "test"]> ∅).

End Scenarios.

(** The rule cascade as the specification words it: a guard and an outcome
    (verdict, confidence) for each of its seven rules, over the tally and
    the presence of evidence.  Compared with [synthesize] below. *)

Module SpecCascade.

Inductive rule := Rule1 | Rule2 | Rule3 | Rule4 | Rule5 | Rule6 | Rule7.

Definition spec_guard (r : rule) (has_evidence : bool)
    (false_count true_count : nat) (ml_confidence : float) : bool :=
  match r with
  | Rule1 =>
    has_evidence && Nat.ltb true_count false_count && Nat.ltb 0 false_count
  | Rule2 =>
    has_evidence && Nat.ltb false_count true_count && Nat.ltb 0 true_count
  | Rule3 =>
    has_evidence && Nat.eqb false_count true_count
    && (0.8 <? ml_confidence)%float
  | Rule4 =>
    has_evidence && Nat.eqb false_count true_count
    && (ml_confidence <=? 0.8)%float
  | Rule5 => negb has_evidence && (0.85 <? ml_confidence)%float
  | Rule6 =>
    negb has_evidence && (0.65 <? ml_confidence)%float
    && (ml_confidence <=? 0.85)%float
  | Rule7 => negb has_evidence && (ml_confidence <=? 0.65)%float
  end.

Definition spec_outcome (r : rule) (ml_label : string)
    (ml_confidence : float) (false_count true_count : nat)
  : string * float :=
  match r with
  | Rule1 =>
    ("FAKE", PyNum.min 0.95 (0.7 + PyNum.float_of_int false_count * 0.1)%float)
  | Rule2 =>
    ("REAL", PyNum.min 0.95 (0.7 + PyNum.float_of_int true_count * 0.1)%float)
  | Rule3 => (ml_label, (ml_confidence * 0.85)%float)
  | Rule4 => ("UNCERTAIN", 0.5%float)
  | Rule5 => (ml_label, ml_confidence)
  | Rule6 => (ml_label, ml_confidence)
  | Rule7 => ("UNCERTAIN", ml_confidence)
  end.

(** [has_evidence]: the evidence list is not empty. *)
Definition has_evidence (fact_checks : list fact_check) : bool :=
  match fact_checks with
  | [] => false
  | _ :: _ => true
  end.

End SpecCascade.

(** ** More of the string library: [str.strip] *)

Module PyText.








End PyText.

(** ** routers/analyze.py: the request model *)

Module Request.



End Request.

(** ** main.py and routers/health.py *)

Module Main.

(** [os.getenv(key)], [None] when the variable is unset. *)
Definition getenv (environ : gmap string string) (key : string)
  : option string :=
  environ !! key.

(** The JSON response of [global_exception_handler]. *)
Record error_response := {
  status_code : Z;
  detail : string;
  message : string
}.

(** [os.getenv("ENVIRONMENT") == "development"] *)
Definition is_development (environ : gmap string string) : bool :=
  match getenv environ "ENVIRONMENT" with
  | Some v => String.eqb v "development"
  | None => false
  end.

Definition global_exception_handler (environ : gmap string string)
    (exc : Py.exn) : error_response :=
  {| status_code := 500;
     detail := "Internal server error";
     message :=
       if is_development environ then Py.str exc else "An error occurred" |}.

(** The dictionary returned by [health_check]; [timestamp] is
    [datetime.utcnow().isoformat()]. *)
Record health := {
  status : string;
  timestamp : string;
  environment : string;
  version : string
}.

Definition health_check (environ : gmap string string) (timestamp : string)
  : health :=
  {| status := "healthy";
     timestamp := timestamp;
     environment :=
       FactCheckService.getenv environ "ENVIRONMENT" "development";
     version := "1.0.0" |}.

End Main.

(** Notions used to state further properties of the services. *)

Module Notions.

(** The number of reviews of a claim of the API's answer. *)
Definition review_count (claim : Py.claim_json) : nat :=
  match Py.claimReview claim with
  | Some reviews => List.length reviews
  | None => 0
  end.

(** The claims of an answer, none when the key is absent. *)
Definition claims_of (data : Py.data_json) : list Py.claim_json :=
  match Py.claims data with
  | Some cs => cs
  | None => []
  end.

(** No review of the answer carries a textual rating. *)
Definition unrated (data : Py.data_json) : Prop :=
  Forall
    (fun claim =>
       match Py.claimReview claim with
       | Some reviews =>
         Forall (fun review => Py.textualRating review = None) reviews
       | None => True
       end)
    (claims_of data).

(** A remote API that answers every search with the given body. *)
Definition answers (data : Py.data_json) (_ : Py.request)
  : Py.exn + Py.response :=
  inr {| Py.status_code := 200; Py.json := inr data |}.

(** An answer with two claims: one reviewed twice, one not reviewed. *)
Definition sample_data : Py.data_json :=
  {| Py.claims :=
       Some
         [ {| Py.text := Some "The moon is made of cheese";
              Py.claimant := None;
              Py.claimReview :=
                Some
                  [ {| Py.textualRating := Some "False";
                       Py.publisher := Some {| Py.name := Some "Checker" |};
                       Py.url := Some "https://example.org/1" |};
                    {| Py.textualRating := None;
                       Py.publisher := None;
                       Py.url := None |} ] |};
           {| Py.text := None;
              Py.claimant := Some "Someone";
              Py.claimReview := None |} ] |}.

(** The confidence of rules 1 and 2 for a winning count [n]. *)
Definition evidence_confidence (n : nat) : float :=
  PyNum.min 0.95 (0.7 + PyNum.float_of_int n * 0.1)%float.

(** A positive binary64 value of at least [2 ^ k]: an infinity, or a
    finite value with a mantissa of at least 53 bits whose leading bit
    weighs at least [2 ^ k]. *)
Definition at_least (k : Z) (x : spec_float) : Prop :=
  x = S754_infinity false
  \/ exists p e, x = S754_finite false p e
               /\ (2 ^ 52 <= Zpos p)%Z /\ (k <= e + 52)%Z.

(** A classifier whose confidence is not a number. *)
Definition nan_model (_ : string) : Py.exn + Py.inference :=
  inr {| Py.probs_0 := nan; Py.probs_1 := nan; Py.pred_class := 0 |}.

End Notions.

(** Predicates and tactics on the specification floats [spec_float] of
    binary64, used to bound the confidences. *)

Module SFDefs.

(** Zero of either sign, or a positive finite or infinite value. *)
Definition nonneg (x : spec_float) : Prop :=
  match x with
  | S754_zero _ => True
  | S754_infinity s => s = false
  | S754_nan => False
  | S754_finite s _ _ => s = false
  end.

(** Case analysis on the comparison of two or three specification floats:
    signs first, then exponents and mantissas through their
    specifications. *)
Ltac sf_order :=
  repeat match goal with
         | s : bool |- _ => destruct s
         end;
  simpl; try congruence;
  repeat match goal with
         | |- context [Z.compare ?a ?b] =>
           destruct (Z.compare_spec a b); simpl; try congruence
         | |- context [Pos.compare_cont Eq ?a ?b] =>
           change (Pos.compare_cont Eq a b) with (Pos.compare a b);
           destruct (Pos.compare_spec a b); simpl; try congruence
         end;
  try (intros; subst; first [congruence | lia]).

End SFDefs.

(** * Properties *)

(** ** Order on binary64 values

    Comparison of the specification floats [spec_float] is a total
    preorder away from NaN; the primitive comparisons inherit it through
    [ltb_spec] and [leb_spec]. *)

Module SFOrder.

Import SFDefs.

Lemma SFleb_trans x y z :
  SFleb x y = true -> SFleb y z = true -> SFleb x z = true.
Proof.
  unfold SFleb.
  destruct x as [sx|sx| |sx mx ex], y as [sy|sy| |sy my ey],
           z as [sz|sz| |sz mz ez]; sf_order.
Qed.

Lemma SFleb_ltb_trans x y z :
  SFleb x y = true -> SFltb y z = true -> SFltb x z = true.
Proof.
  unfold SFleb, SFltb.
  destruct x as [sx|sx| |sx mx ex], y as [sy|sy| |sy my ey],
           z as [sz|sz| |sz mz ez]; sf_order.
Qed.

Lemma SFltb_SFleb x y : SFltb x y = true -> SFleb x y = true.
Proof.
  unfold SFleb, SFltb. destruct (SFcompare x y) as [[]|]; congruence.
Qed.

(** Away from NaN, [x <= y] is the negation of [y < x]. *)
Lemma SFleb_negb_SFltb x y :
  SFleb x x = true -> SFleb y y = true ->
  SFleb x y = negb (SFltb y x).
Proof.
  unfold SFleb, SFltb.
  destruct x as [sx|sx| |sx mx ex], y as [sy|sy| |sy my ey]; sf_order.
Qed.

Lemma SFleb_refl_r x y : SFleb x y = true -> SFleb y y = true.
Proof.
  unfold SFleb.
  destruct x as [sx|sx| |sx mx ex], y as [sy|sy| |sy my ey]; sf_order.
Qed.

Lemma SFleb_refl_l x y : SFleb x y = true -> SFleb x x = true.
Proof.
  unfold SFleb.
  destruct x as [sx|sx| |sx mx ex], y as [sy|sy| |sy my ey]; sf_order.
Qed.

End SFOrder.

Module FloatOrder.

#[local] Open Scope float_scope.

Lemma leb_trans x y z :
  (x <=? y) = true -> (y <=? z) = true -> (x <=? z) = true.
Proof. rewrite !FloatAxioms.leb_spec. apply SFOrder.SFleb_trans. Qed.

Lemma leb_ltb_trans x y z :
  (x <=? y) = true -> (y <? z) = true -> (x <? z) = true.
Proof.
  rewrite !FloatAxioms.leb_spec, !FloatAxioms.ltb_spec.
  apply SFOrder.SFleb_ltb_trans.
Qed.

Lemma ltb_leb x y : (x <? y) = true -> (x <=? y) = true.
Proof.
  rewrite FloatAxioms.leb_spec, FloatAxioms.ltb_spec.
  apply SFOrder.SFltb_SFleb.
Qed.

Lemma leb_refl_r x y : (x <=? y) = true -> (y <=? y) = true.
Proof. rewrite !FloatAxioms.leb_spec. apply SFOrder.SFleb_refl_r. Qed.

Lemma leb_refl_l x y : (x <=? y) = true -> (x <=? x) = true.
Proof. rewrite !FloatAxioms.leb_spec. apply SFOrder.SFleb_refl_l. Qed.

Lemma leb_negb_ltb x y :
  (x <=? x) = true -> (y <=? y) = true -> (x <=? y) = negb (y <? x).
Proof.
  rewrite !FloatAxioms.leb_spec, FloatAxioms.ltb_spec.
  apply SFOrder.SFleb_negb_SFltb.
Qed.

(** [x <= k] decides every comparison of [x] with a constant [k'] above
    [k]. *)
Lemma leb_ltb_false x k k' :
  (x <=? k) = true -> (k <=? k') = true -> (k' <? x) = false.
Proof.
  intros H1 H2.
  pose proof (leb_trans _ _ _ H1 H2) as H.
  rewrite (leb_negb_ltb x k') in H
    by eauto using leb_refl_l, leb_refl_r.
  destruct (k' <? x); [discriminate|reflexivity].
Qed.

End FloatOrder.

(** ** Sign of sums and products *)

Module SFSign.

Import SFDefs.

Lemma iter_pos_invariant {A} (P : A -> Prop) (f : A -> A) :
  (forall x, P x -> P (f x)) ->
  forall n x, P x -> P (SpecFloat.iter_pos f n x).
Proof.
  intros Hf. induction n as [n IH|n IH|]; intros x Hx; simpl; auto.
Qed.

Lemma shr_1_nonneg r : (0 <= shr_m r)%Z -> (0 <= shr_m (shr_1 r))%Z.
Proof.
  destruct r as [m rb sb]. simpl.
  destruct m as [|[p|p|]|p]; simpl; lia.
Qed.

Lemma shr_nonneg r e n :
  (0 <= shr_m r)%Z -> (0 <= shr_m (fst (shr r e n)))%Z.
Proof.
  intros H. destruct n; simpl; try assumption.
  apply (iter_pos_invariant (fun r => 0 <= shr_m r)%Z);
    auto using shr_1_nonneg.
Qed.

Lemma shr_record_of_loc_m m l : shr_m (shr_record_of_loc m l) = m.
Proof. destruct l as [|[]]; reflexivity. Qed.

Lemma shr_fexp_nonneg m e l :
  (0 <= m)%Z -> (0 <= shr_m (fst (shr_fexp prec emax m e l)))%Z.
Proof.
  intros H. unfold shr_fexp. apply shr_nonneg.
  rewrite shr_record_of_loc_m. assumption.
Qed.

Lemma round_nearest_even_nonneg m l :
  (0 <= m)%Z -> (0 <= round_nearest_even m l)%Z.
Proof.
  intros H. destruct l as [|[]]; simpl; try lia.
  destruct (Z.even m); lia.
Qed.

(** Rounding a non-negative mantissa with a positive sign never yields a
    negative value or NaN. *)
Lemma binary_round_aux_nonneg m e l :
  (0 <= m)%Z -> nonneg (binary_round_aux prec emax false m e l).
Proof.
  intros H. unfold binary_round_aux.
  pose proof (shr_fexp_nonneg m e l H) as H1.
  destruct (shr_fexp prec emax m e l) as [mrs' e']. simpl in H1.
  pose proof (shr_fexp_nonneg _ e' loc_Exact
                (round_nearest_even_nonneg _ (loc_of_shr_record mrs') H1))
    as H2.
  destruct (shr_fexp prec emax _ e' loc_Exact) as [mrs'' e''].
  simpl in H2.
  destruct (shr_m mrs'') as [|p|p].
  - exact I.
  - destruct (Z.leb e'' (emax - prec)); reflexivity.
  - lia.
Qed.

Lemma binary_round_nonneg m e : nonneg (binary_round prec emax false m e).
Proof.
  unfold binary_round.
  destruct (shl_align m e _) as [mz ez].
  apply binary_round_aux_nonneg. lia.
Qed.

Lemma binary_normalize_nonneg m e :
  (0 <= m)%Z -> nonneg (binary_normalize prec emax m e false).
Proof.
  intros H. destruct m as [|p|p].
  - exact I.
  - apply binary_round_nonneg.
  - lia.
Qed.

Lemma SFmul_nonneg x my ey :
  nonneg x -> nonneg (SF64mul x (S754_finite false my ey)).
Proof.
  destruct x as [s|s| |s m e]; simpl; auto.
  - intros ->. reflexivity.
  - intros ->. apply binary_round_aux_nonneg. lia.
Qed.

Lemma SFadd_nonneg mx ex y :
  nonneg y -> nonneg (SF64add (S754_finite false mx ex) y).
Proof.
  destruct y as [s|s| |s m e]; simpl; auto.
  intros ->. apply binary_round_nonneg.
Qed.

Lemma nonneg_SFleb_zero x : nonneg x -> SFleb (S754_zero false) x = true.
Proof.
  destruct x as [s|s| |s m e]; simpl; try tauto; intros ->; reflexivity.
Qed.

End SFSign.

(** ** Magnitude of a rounded product *)

Module SFRound.
#[local] Open Scope Z_scope.

Lemma digits2_pos_size p : digits2_pos p = Pos.size p.
Proof. induction p as [p IH|p IH|]; simpl; congruence. Qed.

(** The number of binary digits of a positive number is fixed by the
    powers of two around it. *)
Lemma digits2_pos_bounds p d :
  2 ^ (d - 1) <= Zpos p < 2 ^ d -> Zpos (digits2_pos p) = d.
Proof.
  intros [Hlo Hhi]. rewrite digits2_pos_size.
  assert (Hd : 0 < d).
  { destruct (Z_lt_le_dec 0 d) as [|Hle]; [assumption|].
    destruct (Z.eq_dec d 0) as [->|Hne]; [simpl in Hhi; lia|].
    rewrite Z.pow_neg_r in Hhi by lia. lia. }
  pose proof (Pos.size_gt p) as Hgt.
  pose proof (Pos.size_le p) as Hle.
  apply Pos2Z.pos_lt_pos in Hgt. apply Pos2Z.pos_le_pos in Hle.
  rewrite Pos2Z.inj_pow in Hgt, Hle.
  change (Z.pos p~0) with (2 * Z.pos p) in Hle.
  set (s := Z.pos (Pos.size p)) in *.
  assert (Hs : 0 < s) by (unfold s; lia).
  assert (d - 1 < s).
  { apply (Z.pow_lt_mono_r_iff 2); lia. }
  assert (s < d + 1).
  { apply (Z.pow_lt_mono_r_iff 2); try lia.
    rewrite Z.pow_add_r by lia. lia. }
  lia.
Qed.

Lemma shr_1_div2 r : 0 <= shr_m r -> shr_m (shr_1 r) = shr_m r / 2.
Proof.
  destruct r as [m rb sb]. simpl. intros H.
  destruct m as [|[p|p|]|p]; try lia; simpl shr_m.
  - reflexivity.
  - rewrite Pos2Z.inj_xI. apply (Z.div_unique _ _ _ 1); lia.
  - rewrite Pos2Z.inj_xO. apply (Z.div_unique _ _ _ 0); lia.
  - reflexivity.
Qed.

Lemma pow2_xO n : 2 ^ Zpos n~0 = 2 ^ Zpos n * 2 ^ Zpos n.
Proof.
  replace (Zpos n~0) with (Zpos n + Zpos n) by lia.
  apply Z.pow_add_r; lia.
Qed.

Lemma pow2_xI n : 2 ^ Zpos n~1 = 2 * (2 ^ Zpos n * 2 ^ Zpos n).
Proof.
  replace (Zpos n~1) with (1 + Zpos n~0) by lia.
  rewrite Z.pow_add_r, pow2_xO by lia. reflexivity.
Qed.

Lemma iter_shr_1_div n : forall r,
  0 <= shr_m r ->
  shr_m (SpecFloat.iter_pos shr_1 n r) = shr_m r / 2 ^ Zpos n.
Proof.
  induction n as [n IH|n IH|]; intros r Hr; simpl SpecFloat.iter_pos.
  - assert (H1 : 0 <= shr_m (shr_1 r)).
    { rewrite shr_1_div2 by assumption. apply Z.div_pos; lia. }
    assert (H2 : 0 <= shr_m (SpecFloat.iter_pos shr_1 n (shr_1 r))).
    { rewrite IH by assumption. apply Z.div_pos; lia. }
    rewrite IH, IH, shr_1_div2 by assumption.
    rewrite !Z.div_div, pow2_xI by lia. reflexivity.
  - assert (H2 : 0 <= shr_m (SpecFloat.iter_pos shr_1 n r)).
    { rewrite IH by assumption. apply Z.div_pos; lia. }
    rewrite IH, IH by assumption.
    rewrite !Z.div_div, pow2_xO by lia. reflexivity.
  - rewrite shr_1_div2 by assumption. reflexivity.
Qed.

Lemma round_nearest_even_bounds m l :
  m <= round_nearest_even m l <= m + 1.
Proof.
  destruct l as [|[]]; simpl; try lia. destruct (Z.even m); lia.
Qed.


Lemma shr_fexp_pos M d e l :
  Zpos (digits2_pos M) = d ->
  shr_fexp prec emax (Zpos M) e l
  = shr (shr_record_of_loc (Zpos M) l) e (fexp prec emax (d + e) - e).
Proof. intros <-. reflexivity. Qed.

Lemma SFmul_085 m :
  7205759403792794 < Zpos m < 2 ^ 53 ->
  exists p,
    SF64mul (S754_finite false m (-53))
            (S754_finite false 7656119366529843 (-53))
    = S754_finite false p (-53).
Proof.
  intros Hm. unfold SF64mul, SFmul. cbn [xorb].
  set (M := (m * 7656119366529843)%positive).
  assert (HM : 2 ^ (106 - 1) <= Zpos M < 2 ^ 106).
  { unfold M. rewrite Pos2Z.inj_mul.
    change (2 ^ (106 - 1)) with 40564819207303340847894502572032.
    change (2 ^ 106) with 81129638414606681695789005144064.
    change (2 ^ 53) with 9007199254740992 in Hm. nia. }
  unfold binary_round_aux.
  rewrite (shr_fexp_pos M 106) by (apply digits2_pos_bounds; exact HM).
  change (fexp prec emax (106 + (-53 + -53)) - (-53 + -53)) with 53.
  change (shr (shr_record_of_loc (Z.pos M) loc_Exact) (-53 + -53) 53)
    with (SpecFloat.iter_pos shr_1 53 (shr_record_of_loc (Z.pos M) loc_Exact),
          -53).
  set (r1 := SpecFloat.iter_pos shr_1 53 _).
  assert (Hr1 : shr_m r1 = Zpos M / 2 ^ 53).
  { unfold r1.
    rewrite iter_shr_1_div; rewrite SFSign.shr_record_of_loc_m; lia. }
  cbv beta iota zeta.
  pose proof (round_nearest_even_bounds (shr_m r1) (loc_of_shr_record r1))
    as Hq.
  set (q := round_nearest_even (shr_m r1) (loc_of_shr_record r1)) in *.
  assert (Hlo : 2 ^ 52 <= shr_m r1).
  { rewrite Hr1. apply Z.div_le_lower_bound; [lia|].
    change (2 ^ 53 * 2 ^ 52) with (2 ^ (106 - 1)). lia. }
  assert (Hhi : shr_m r1 < 7656119366529843).
  { rewrite Hr1. apply Z.div_lt_upper_bound; [lia|].
    unfold M. rewrite Pos2Z.inj_mul. nia. }
  change (2 ^ 52) with 4503599627370496 in Hlo.
  destruct q as [|qp|qp] eqn:Eq; try lia.
  rewrite (shr_fexp_pos qp 53).
  2:{ apply digits2_pos_bounds.
      change (2 ^ (53 - 1)) with 4503599627370496.
      change (2 ^ 53) with 9007199254740992. lia. }
  exists qp. reflexivity.
Qed.

Lemma digits2_pos_range p :
  2 ^ (Zpos (digits2_pos p) - 1) <= Zpos p < 2 ^ Zpos (digits2_pos p).
Proof.
  rewrite digits2_pos_size.
  pose proof (Pos.size_gt p) as Hgt.
  pose proof (Pos.size_le p) as Hle.
  apply Pos2Z.pos_lt_pos in Hgt. apply Pos2Z.pos_le_pos in Hle.
  rewrite Pos2Z.inj_pow in Hgt, Hle.
  change (Z.pos p~0) with (2 * Z.pos p) in Hle.
  set (s := Z.pos (Pos.size p)) in *.
  assert (Hs : 0 < s) by (unfold s; lia).
  replace s with (1 + (s - 1)) in Hle by lia.
  rewrite Z.pow_add_r in Hle by lia.
  change (2 ^ 1) with 2 in Hle. lia.
Qed.

(** A valid binary64 value above the double 0.8 and at most 1 is either 1
    or has exponent -53 and a 53-bit mantissa above that of 0.8. *)
Lemma unit_upper_shape x :
  valid_binary x = true ->
  SFltb (S754_finite false 7205759403792794 (-53)) x = true ->
  SFleb x (S754_finite false 4503599627370496 (-52)) = true ->
  x = S754_finite false 4503599627370496 (-52)
  \/ exists m, x = S754_finite false m (-53)
              /\ 7205759403792794 < Zpos m < 2 ^ 53.
Proof.
  destruct x as [s|s| |s m e];
    try (destruct s; discriminate); try (intros _ H; discriminate H).
  destruct s; [discriminate|].
  intros Hv Hlt Hle.
  unfold SFltb, SFleb in Hlt, Hle. cbn [SFcompare] in Hlt, Hle.
  change (Pos.compare_cont Eq) with Pos.compare in Hlt, Hle.
  cbn [valid_binary bounded] in Hv.
  apply andb_prop in Hv as [Hc _].
  unfold canonical_mantissa, fexp, emin, prec, emax in Hc.
  apply Z.eqb_eq in Hc.
  pose proof (digits2_pos_range m) as Hd.
  destruct (Z.compare_spec (-53) e) as [He|He|He]; try discriminate.
  - subst e. right. exists m. split; [reflexivity|].
    destruct (Pos.compare_spec 7205759403792794 m) as [|Hm|]; try discriminate.
    apply Pos2Z.pos_lt_pos in Hm.
    assert (Hd53 : Zpos (digits2_pos m) = 53) by (clear Hd; lia).
    rewrite Hd53 in Hd. lia.
  - destruct (Z.compare_spec e (-52)) as [He'|He'|He']; try discriminate;
      [|lia].
    subst e. left.
    destruct (Pos.compare_spec m 4503599627370496) as [Hm|Hm|Hm];
      try discriminate.
    + subst m. reflexivity.
    + apply Pos2Z.pos_lt_pos in Hm.
      assert (Hd53 : Zpos (digits2_pos m) = 53) by (clear Hd; lia).
      rewrite Hd53 in Hd.
      change (2 ^ (53 - 1)) with 4503599627370496 in Hd. lia.
Qed.

End SFRound.

Module FloatBounds.

#[local] Open Scope float_scope.

Lemma Prim2SF_08 : Prim2SF 0.8 = S754_finite false 7205759403792794 (-53).
Proof. reflexivity. Qed.

Lemma Prim2SF_085 : Prim2SF 0.85 = S754_finite false 7656119366529843 (-53).
Proof. reflexivity. Qed.

Lemma Prim2SF_1 : Prim2SF 1 = S754_finite false 4503599627370496 (-52).
Proof. reflexivity. Qed.

Lemma Prim2SF_0 : Prim2SF 0 = S754_zero false.
Proof. reflexivity. Qed.

(** The confidence of rule 3: a confidence in (0.8, 1] scaled by 0.85
    stays in [0, 1]. *)
Lemma mul_085_unit c :
  (0.8 <? c) = true -> (c <=? 1) = true ->
  (0 <=? c * 0.85) = true /\ (c * 0.85 <=? 1) = true.
Proof.
  intros Hlt Hle.
  rewrite FloatAxioms.ltb_spec, Prim2SF_08 in Hlt.
  rewrite FloatAxioms.leb_spec, Prim2SF_1 in Hle.
  destruct (SFRound.unit_upper_shape _ (Prim2SF_valid c) Hlt Hle)
    as [H1|[m [Hc Hm]]].
  - rewrite <- Prim2SF_1 in H1. apply Prim2SF_inj in H1. subst c.
    split; reflexivity.
  - rewrite !FloatAxioms.leb_spec, FloatAxioms.mul_spec, Hc, Prim2SF_085.
    destruct (SFRound.SFmul_085 m Hm) as [p ->].
    split; reflexivity.
Qed.

Lemma Prim2SF_07 : Prim2SF 0.7 = S754_finite false 6305039478318694 (-53).
Proof. reflexivity. Qed.

Lemma Prim2SF_01 : Prim2SF 0.1 = S754_finite false 7205759403792794 (-56).
Proof. reflexivity. Qed.

(** The confidence of rules 1 and 2 before the cap is never negative (nor
    NaN), whatever the count. *)
Lemma evidence_confidence_nonneg n :
  (0 <=? 0.7 + PyNum.float_of_int n * 0.1) = true.
Proof.
  unfold PyNum.float_of_int.
  rewrite FloatAxioms.leb_spec, FloatAxioms.add_spec, FloatAxioms.mul_spec.
  rewrite of_uint63_spec.
  rewrite Prim2SF_0, Prim2SF_07, Prim2SF_01.
  apply SFSign.nonneg_SFleb_zero, SFSign.SFadd_nonneg, SFSign.SFmul_nonneg,
    SFSign.binary_normalize_nonneg.
  apply Uint63.to_Z_bounded.
Qed.

Lemma min_le_l a b : (a <=? a) = true -> (PyNum.min a b <=? a) = true.
Proof.
  intros Ha. unfold PyNum.min.
  destruct (b <? a) eqn:Hb; [apply FloatOrder.ltb_leb|]; assumption.
Qed.

Lemma min_ge k a b :
  (k <=? a) = true -> (k <=? b) = true -> (k <=? PyNum.min a b) = true.
Proof.
  intros Ha Hb. unfold PyNum.min. destruct (b <? a); assumption.
Qed.

(** The capped confidence of rules 1 and 2 lies in [0, 0.95]. *)
Lemma capped_confidence_bounds n :
  let x := PyNum.min 0.95 (0.7 + PyNum.float_of_int n * 0.1) in
  (0 <=? x) = true /\ (x <=? 0.95) = true.
Proof.
  split.
  - apply min_ge; [reflexivity|apply evidence_confidence_nonneg].
  - apply min_le_l. reflexivity.
Qed.

End FloatBounds.


(** ** The rating tally *)

Module TallyFacts.

Import SynthesisService Tally.

Lemma sum_1_if_cons cond fc l :
  sum_1_if cond (fc :: l) = (if cond fc then 1 else 0) + sum_1_if cond l.
Proof.
  unfold sum_1_if. simpl. destruct (cond fc); reflexivity.
Qed.

Lemma sum_1_if_nil cond : sum_1_if cond [] = 0.
Proof. reflexivity. Qed.

Lemma sum_1_if_le_length cond l : sum_1_if cond l <= length l.
Proof.
  induction l as [|fc l IH]; [rewrite sum_1_if_nil; lia|].
  rewrite sum_1_if_cons. simpl. destruct (cond fc); lia.
Qed.

Lemma sum_1_if_none cond l :
  Forall (fun fc => cond fc = false) l -> sum_1_if cond l = 0.
Proof.
  induction 1 as [|fc l Hfc _ IH]; [reflexivity|].
  rewrite sum_1_if_cons, Hfc, IH. reflexivity.
Qed.

(** The ratings named in the specification's examples. *)
Example rating_examples :
  any_rating false_ratings (rated "FALSE") = true
  /\ any_rating false_ratings (rated "false") = true
  /\ any_rating false_ratings (rated "Mostly False") = true
  /\ any_rating true_ratings (rated "Half True") = true
  /\ any_rating false_ratings (rated "Half True") = false
  /\ matches_neither (rated "Unproven") = true.
Proof. repeat split; reflexivity. Qed.

Lemma sum_1_if_app cond l1 l2 :
  sum_1_if cond (l1 ++ l2) = sum_1_if cond l1 + sum_1_if cond l2.
Proof.
  induction l1 as [|fc l1 IH]; [reflexivity|].
  rewrite <- app_comm_cons, !sum_1_if_cons, IH. lia.
Qed.

Lemma sum_1_if_repeat cond fc n :
  sum_1_if cond (repeat fc n) = if cond fc then n else 0.
Proof.
  induction n as [|n IH]; [destruct (cond fc); reflexivity|].
  cbn [repeat]. rewrite sum_1_if_cons, IH. destruct (cond fc); reflexivity.
Qed.

(** Every pair of counts is the tally of some non-empty evidence list. *)
Lemma every_tally_arises (f t : nat) :
  exists fcs : list fact_check,
    fcs <> [] /\ false_count fcs = f /\ true_count fcs = t.
Proof.
  exists (rated "Unproven"
          :: repeat (rated "False") f ++ repeat (rated "True") t).
  split; [discriminate|].
  unfold false_count, true_count.
  rewrite !sum_1_if_cons, !sum_1_if_app, !sum_1_if_repeat.
  change (any_rating false_ratings (rated "Unproven")) with false.
  change (any_rating true_ratings (rated "Unproven")) with false.
  change (any_rating false_ratings (rated "False")) with true.
  change (any_rating true_ratings (rated "False")) with false.
  change (any_rating false_ratings (rated "True")) with false.
  change (any_rating true_ratings (rated "True")) with true.
  split; lia.
Qed.

(** C1, as stated, fails: an item whose rating contains both a falsity and
    a truth substring is counted in [true_count] as well; with a confident
    REAL prediction the verdict for such a single item is REAL, not FAKE. *)
Lemma C1_both_sets_counterexample :
  let fc := rated "Half true, half false" in
  matches_both fc = true
  /\ false_count [fc] = 1
  /\ true_count [fc] = 1
  /\ true_count [fc] <> true_count []
  /\ verdict (synthesize "REAL" 0.9 [fc]) = "REAL".
Proof. repeat split; try reflexivity. discriminate. Qed.

(** C1 (amended): an item whose rating contains both a falsity substring
    and a truth substring increments [false_count] and also increments
    [true_count]: the two counts are taken independently. *)
Theorem C1_both_sets_increment_both (fc : fact_check) (l : list fact_check) :
  matches_both fc = true ->
  false_count (fc :: l) = S (false_count l)
  /\ true_count (fc :: l) = S (true_count l).
Proof.
  unfold matches_both, false_count, true_count. intros H.
  apply andb_prop in H as [Hf Ht].
  rewrite !sum_1_if_cons, Hf, Ht. split; reflexivity.
Qed.

Lemma C1_both_sets_increment_both_witness :
  matches_both (rated "TRUE or FALSE") = true
  /\ false_count [rated "TRUE or FALSE"; rated "False"] = 2
  /\ true_count [rated "TRUE or FALSE"; rated "False"] = 1.
Proof.
  split; [reflexivity|].
  apply (C1_both_sets_increment_both (rated "TRUE or FALSE") [rated "False"]).
  reflexivity.
Defined.

(** C2, as stated, fails: one item matching both sets gives
    [false_count + true_count = 2] for a list of length 1. *)
Lemma C2_sum_bound_counterexample :
  ~ (false_count [rated "Half true, half false"]
     + true_count [rated "Half true, half false"]
     <= length [rated "Half true, half false"]).
Proof. vm_compute. lia. Qed.

Lemma tally_balance l :
  false_count l + true_count l + neither_count l = length l + both_count l.
Proof.
  unfold false_count, true_count, neither_count, both_count.
  induction l as [|fc l IH]; [reflexivity|].
  rewrite !sum_1_if_cons. simpl length. revert IH.
  generalize (sum_1_if (any_rating false_ratings) l)
             (sum_1_if (any_rating true_ratings) l)
             (sum_1_if matches_neither l) (sum_1_if matches_both l).
  intros f t n b IH. unfold matches_neither, matches_both.
  destruct (any_rating false_ratings fc), (any_rating true_ratings fc);
    cbn [negb andb]; lia.
Qed.

(** C2 (amended): each count alone is bounded by the length of the list, and
    [false_count + true_count] equals the length minus the items matching
    neither set plus the items matching both sets. *)
Theorem C2_tally_bounds (l : list fact_check) :
  false_count l <= length l
  /\ true_count l <= length l
  /\ false_count l + true_count l + neither_count l
     = length l + both_count l.
Proof.
  split; [apply sum_1_if_le_length|].
  split; [apply sum_1_if_le_length|].
  apply tally_balance.
Qed.

End TallyFacts.

(** ** The rule cascade of [synthesize] *)

Module SynthesisFacts.

Import SynthesisService Tally SpecCascade.

#[local] Open Scope float_scope.

Lemma matches_neither_false fc :
  matches_neither fc = true ->
  any_rating false_ratings fc = false /\ any_rating true_ratings fc = false.
Proof.
  unfold matches_neither.
  destruct (any_rating false_ratings fc), (any_rating true_ratings fc);
    simpl; intros H; try discriminate H; split; reflexivity.
Qed.

Lemma undetermined_counts fcs :
  Forall (fun fc => matches_neither fc = true) fcs ->
  false_count fcs = 0%nat /\ true_count fcs = 0%nat.
Proof.
  intros H. split; apply TallyFacts.sum_1_if_none;
    eapply Forall_impl; try exact H; intros fc Hfc;
    apply matches_neither_false in Hfc; tauto.
Qed.

(** C3: a non-empty evidence list whose items all have an undetermined
    rating has tally (0, 0) and is decided by the tie-break rules 3 and 4:
    the model's label with confidence [c * 0.85] when [c > 0.8], UNCERTAIN
    with confidence 0.5 when [c <= 0.8]; the result is never the one the
    no-evidence rules would give. *)
Theorem C3_undetermined_evidence_tie_break
    (ml_prediction : string) (c : float) (fcs : list fact_check) :
  fcs <> [] ->
  Forall (fun fc => matches_neither fc = true) fcs ->
  let r := synthesize ml_prediction c fcs in
  (false_count fcs = 0%nat /\ true_count fcs = 0%nat)
  /\ ((0.8 <? c) = true ->
      verdict r = ml_prediction /\ confidence r = c * 0.85)
  /\ ((c <=? 0.8) = true ->
      verdict r = "UNCERTAIN"%string /\ confidence r = 0.5)
  /\ r <> ml_rules ml_prediction c.
Proof.
  intros Hne Hall r.
  destruct (undetermined_counts fcs Hall) as [Hf Ht].
  split; [split; assumption|].
  destruct fcs as [|fc l]; [congruence|].
  unfold r, synthesize. rewrite Hf, Ht. cbn [Nat.ltb Nat.leb Nat.eqb andb].
  split; [|split].
  - intros ->. split; reflexivity.
  - intros Hle.
    rewrite (FloatOrder.leb_ltb_false c 0.8 0.8 Hle eq_refl).
    split; reflexivity.
  - unfold ml_rules.
    destruct (0.8 <? c), (0.85 <? c), (0.65 <? c);
      intros H; apply (f_equal reasoning) in H; discriminate H.
Qed.

Lemma C3_undetermined_evidence_tie_break_witness :
  let r := synthesize "REAL" 0.9 [rated "Unproven"] in
  (false_count [rated "Unproven"] = 0%nat
   /\ true_count [rated "Unproven"] = 0%nat)
  /\ ((0.8 <? 0.9) = true ->
      verdict r = "REAL"%string /\ confidence r = 0.9 * 0.85)
  /\ ((0.9 <=? 0.8) = true ->
      verdict r = "UNCERTAIN"%string /\ confidence r = 0.5)
  /\ r <> ml_rules "REAL" 0.9.
Proof.
  apply (C3_undetermined_evidence_tie_break "REAL" 0.9 [rated "Unproven"]).
  - discriminate.
  - repeat constructor.
Defined.

(** Scenarios B to E of the specification. *)
Example spec_scenarios :
  (let r := synthesize "REAL" 0.6 [rated "True"; rated "False"] in
   verdict r = "UNCERTAIN"%string /\ confidence r = 0.5)
  /\ (let r := synthesize "FAKE" 0.9 [] in
      verdict r = "FAKE"%string /\ confidence r = 0.9)
  /\ (let r := synthesize "REAL" 0.7 [] in
      verdict r = "REAL"%string /\ confidence r = 0.7)
  /\ (let r := synthesize "FAKE" 0.5 [] in
      verdict r = "UNCERTAIN"%string /\ confidence r = 0.5).
Proof. repeat split. Qed.

(** C4, as stated, fails on its example: with one false rating the
    confidence is the binary64 sum [0.7 + 1 * 0.1], which is not the
    binary64 number [0.8]. *)
Lemma C4_scenario_A_counterexample :
  let r := synthesize "FAKE" 0.9 [rated "False"] in
  false_count [rated "False"] = 1%nat
  /\ true_count [rated "False"] = 0%nat
  /\ verdict r = "FAKE"%string
  /\ (confidence r =? 0.8) = false
  /\ confidence r <> 0.8.
Proof.
  repeat split.
  intros H. apply (f_equal Prim2SF) in H. vm_compute in H. discriminate H.
Qed.

(** C4 (amended): when [false_count > true_count] the verdict is FAKE with
    confidence [min(0.95, 0.7 + false_count * 0.1)] computed in binary64;
    for a tally with [false_count = 1] this is 0.7999999999999999, one unit
    in the last place below 0.8. *)
Theorem C4_false_majority
    (ml_prediction : string) (c : float) (fcs : list fact_check) :
  (true_count fcs < false_count fcs)%nat ->
  let r := synthesize ml_prediction c fcs in
  verdict r = "FAKE"%string
  /\ confidence r
     = PyNum.min 0.95 (0.7 + PyNum.float_of_int (false_count fcs) * 0.1)
  /\ (false_count fcs = 1%nat -> confidence r = 0.7999999999999999).
Proof.
  intros Hlt r.
  assert (Hr : r = {| verdict := "FAKE";
                      confidence :=
                        PyNum.min 0.95
                          (0.7 + PyNum.float_of_int (false_count fcs) * 0.1);
                      reasoning :=
                        [PyStr.Lit "Professional fact-checkers found this claim to be false. ";
                         PyStr.FInt (false_count fcs);
                         PyStr.Lit " fact-checker(s) rated it as false or misleading."] |}).
  { unfold r, synthesize. destruct fcs as [|fc l]; [inversion Hlt|].
    replace (Nat.ltb (true_count (fc :: l)) (false_count (fc :: l)))
      with true by (symmetry; apply Nat.ltb_lt; assumption).
    replace (Nat.ltb 0 (false_count (fc :: l)))
      with true by (symmetry; apply Nat.ltb_lt; lia).
    reflexivity. }
  rewrite Hr. cbn [verdict confidence].
  split; [reflexivity|]. split; [reflexivity|].
  intros ->. reflexivity.
Qed.

Lemma C4_false_majority_witness :
  let r := synthesize "FAKE" 0.9 [rated "False"] in
  verdict r = "FAKE"%string
  /\ confidence r
     = PyNum.min 0.95
         (0.7 + PyNum.float_of_int (false_count [rated "False"]) * 0.1)
  /\ (false_count [rated "False"] = 1%nat
      -> confidence r = 0.7999999999999999).
Proof.
  apply (C4_false_majority "FAKE" 0.9 [rated "False"]).
  vm_compute. lia.
Defined.

(** C5: with no evidence the verdict is the model's label with the model's
    confidence when that confidence exceeds 0.65 (rule 5 above 0.85, rule 6
    up to 0.85), and UNCERTAIN with the model's confidence when it is at
    most 0.65. *)
Theorem C5_no_evidence (ml_prediction : string) (c : float) :
  let r := synthesize ml_prediction c [] in
  ((0.65 <? c) = true -> verdict r = ml_prediction /\ confidence r = c)
  /\ ((c <=? 0.65) = true ->
      verdict r = "UNCERTAIN"%string /\ confidence r = c)
  /\ ((0.85 <? c) = true ->
      r = {| verdict := ml_prediction;
             confidence := c;
             reasoning :=
               [PyStr.Lit "No fact-checks found. Our AI model predicts this is ";
                PyStr.FStr ml_prediction;
                PyStr.Lit " with high confidence (";
                PyStr.FPct0 c; PyStr.Lit ")."] |})
  /\ ((0.65 <? c) = true -> (c <=? 0.85) = true ->
      r = {| verdict := ml_prediction;
             confidence := c;
             reasoning :=
               [PyStr.Lit "No fact-checks found. Our AI model suggests this is likely ";
                PyStr.FStr ml_prediction; PyStr.Lit " ("; PyStr.FPct0 c;
                PyStr.Lit " confidence)."] |}).
Proof.
  intros r. unfold r, synthesize, ml_rules.
  split; [|split; [|split]].
  - intros ->. destruct (0.85 <? c); split; reflexivity.
  - intros Hle.
    rewrite (FloatOrder.leb_ltb_false c 0.65 0.85 Hle eq_refl).
    rewrite (FloatOrder.leb_ltb_false c 0.65 0.65 Hle eq_refl).
    split; reflexivity.
  - intros ->. reflexivity.
  - intros -> Hle.
    rewrite (FloatOrder.leb_ltb_false c 0.85 0.85 Hle eq_refl).
    reflexivity.
Qed.

Lemma C5_no_evidence_witness :
  (verdict (synthesize "FAKE" 0.9 []) = "FAKE"%string
   /\ confidence (synthesize "FAKE" 0.9 []) = 0.9)
  /\ (verdict (synthesize "REAL" 0.7 []) = "REAL"%string
      /\ confidence (synthesize "REAL" 0.7 []) = 0.7)
  /\ (verdict (synthesize "FAKE" 0.5 []) = "UNCERTAIN"%string
      /\ confidence (synthesize "FAKE" 0.5 []) = 0.5).
Proof.
  split; [|split].
  - apply (C5_no_evidence "FAKE" 0.9). reflexivity.
  - apply (C5_no_evidence "REAL" 0.7). reflexivity.
  - apply (C5_no_evidence "FAKE" 0.5). reflexivity.
Defined.

End SynthesisFacts.

(** ** Totality of the cascade and bounds on the confidence *)

Module CascadeFacts.

Import SynthesisService Tally SpecCascade.

#[local] Open Scope float_scope.

(** Boolean comparisons of counts in the context, as propositions. *)
Ltac nat_facts :=
  repeat match goal with
         | H : Nat.ltb _ _ = true |- _ => apply Nat.ltb_lt in H
         | H : Nat.ltb _ _ = false |- _ => apply Nat.ltb_ge in H
         | H : Nat.eqb _ _ = true |- _ => apply Nat.eqb_eq in H
         | H : Nat.eqb _ _ = false |- _ => apply Nat.eqb_neq in H
         end.

(** Inside the unit interval the comparisons with the three thresholds are
    consistent with each other. *)
Lemma thresholds c :
  PyNum.in_unit c ->
  (c <=? 0.8) = negb (0.8 <? c)
  /\ (c <=? 0.85) = negb (0.85 <? c)
  /\ (c <=? 0.65) = negb (0.65 <? c)
  /\ ((0.85 <? c) = true -> (0.65 <? c) = true).
Proof.
  intros [H0 _].
  pose proof (FloatOrder.leb_refl_r _ _ H0) as Hc.
  repeat split;
    try (apply FloatOrder.leb_negb_ltb; [exact Hc|reflexivity]).
  apply FloatOrder.leb_ltb_trans. reflexivity.
Qed.

(** Closes a goal that names the rule: its guard holds, every other guard
    fails, and the outcome is the rule's. *)
Ltac one_rule :=
  split;
  [ cbn [spec_guard negb andb];
    repeat match goal with H : _ = _ |- _ => rewrite H end; reflexivity
  | split;
    [ intros r'; destruct r'; cbn [spec_guard negb andb];
      repeat match goal with H : _ = _ |- _ => rewrite H end;
      cbn [negb andb];
      intros Hr'; first [reflexivity|discriminate Hr']
    | reflexivity ] ].

(** C6: for a label in {FAKE, REAL}, a confidence in [0, 1] and any
    evidence list, exactly one rule of the specified cascade has its guard
    satisfied by the list's tally, and [synthesize] (a total function)
    returns that rule's verdict and confidence. *)
Theorem C6_exactly_one_rule
    (ml_prediction : string) (c : float) (fcs : list fact_check) :
  ml_prediction = "FAKE"%string \/ ml_prediction = "REAL"%string ->
  PyNum.in_unit c ->
  exists r : rule,
    spec_guard r (has_evidence fcs) (false_count fcs) (true_count fcs) c
    = true
    /\ (forall r' : rule,
          spec_guard r' (has_evidence fcs) (false_count fcs) (true_count fcs)
            c = true ->
          r' = r)
    /\ (verdict (synthesize ml_prediction c fcs),
        confidence (synthesize ml_prediction c fcs))
       = spec_outcome r ml_prediction c (false_count fcs) (true_count fcs).
Proof.
  intros _ Hc.
  destruct (thresholds c Hc) as (E80 & E85 & E65 & T).
  destruct fcs as [|fc l].
  - change (false_count []) with 0%nat. change (true_count []) with 0%nat.
    unfold synthesize, ml_rules, has_evidence.
    destruct (0.85 <? c) eqn:A; [|destruct (0.65 <? c) eqn:B].
    + pose proof (T eq_refl) as B. exists Rule5. one_rule.
    + exists Rule6. one_rule.
    + exists Rule7. one_rule.
  - unfold synthesize, has_evidence.
    generalize (false_count (fc :: l)) (true_count (fc :: l)).
    intros f t.
    destruct (Nat.ltb t f) eqn:E1, (Nat.ltb f t) eqn:E2,
             (Nat.ltb 0 f) eqn:E3, (Nat.ltb 0 t) eqn:E4,
             (Nat.eqb f t) eqn:E5;
      try solve [exfalso; nat_facts; lia]; cbn [andb].
    all: try (destruct (0.8 <? c) eqn:C).
    all: first [ exists Rule1; solve [one_rule]
               | exists Rule2; solve [one_rule]
               | exists Rule3; solve [one_rule]
               | exists Rule4; solve [one_rule] ].
Qed.

Lemma C6_exactly_one_rule_witness :
  exists r : rule,
    spec_guard r (has_evidence [rated "False"])
      (false_count [rated "False"]) (true_count [rated "False"]) 0.9 = true
    /\ (forall r' : rule,
          spec_guard r' (has_evidence [rated "False"])
            (false_count [rated "False"]) (true_count [rated "False"]) 0.9
          = true ->
          r' = r)
    /\ (verdict (synthesize "FAKE" 0.9 [rated "False"]),
        confidence (synthesize "FAKE" 0.9 [rated "False"]))
       = spec_outcome r "FAKE" 0.9
           (false_count [rated "False"]) (true_count [rated "False"]).
Proof.
  apply (C6_exactly_one_rule "FAKE" 0.9 [rated "False"]).
  - left. reflexivity.
  - split; reflexivity.
Defined.

Lemma in_unit_ml_rules ml_prediction c :
  PyNum.in_unit c -> PyNum.in_unit (confidence (ml_rules ml_prediction c)).
Proof.
  intros Hc. unfold ml_rules.
  destruct (0.85 <? c), (0.65 <? c); exact Hc.
Qed.

Lemma in_unit_capped n :
  PyNum.in_unit (PyNum.min 0.95 (0.7 + PyNum.float_of_int n * 0.1)).
Proof.
  destruct (FloatBounds.capped_confidence_bounds n) as [H0 H95].
  split; [exact H0|].
  apply (FloatOrder.leb_trans _ 0.95); [exact H95|reflexivity].
Qed.

(** C7: for a model confidence in [0, 1] the confidence returned by
    [synthesize] lies in [0, 1]; when the two counts differ (rules 1 and 2)
    it is at most 0.95, whatever the counts and the model confidence. *)
Theorem C7_confidence_bounds
    (ml_prediction : string) (c : float) (fcs : list fact_check) :
  (PyNum.in_unit c ->
   PyNum.in_unit (confidence (synthesize ml_prediction c fcs)))
  /\ (false_count fcs <> true_count fcs ->
      (confidence (synthesize ml_prediction c fcs) <=? 0.95) = true).
Proof.
  destruct fcs as [|fc l].
  - split; [apply in_unit_ml_rules|].
    intros H. exfalso. apply H. reflexivity.
  - unfold synthesize.
    generalize (false_count (fc :: l)) (true_count (fc :: l)).
    intros f t.
    destruct (Nat.ltb t f) eqn:E1, (Nat.ltb f t) eqn:E2,
             (Nat.ltb 0 f) eqn:E3, (Nat.ltb 0 t) eqn:E4,
             (Nat.eqb f t) eqn:E5;
      try solve [exfalso; nat_facts; lia]; cbn [andb confidence].
    all: try solve
      [ split;
        [ intros _; apply in_unit_capped
        | intros _; apply FloatBounds.capped_confidence_bounds ] ].
    all: split; [|intros H; exfalso; nat_facts; lia].
    all: intros [H0 H1]; destruct (0.8 <? c) eqn:C; cbn [confidence].
    all: first [ apply FloatBounds.mul_085_unit; assumption
               | split; reflexivity ].
Qed.

Lemma C7_confidence_bounds_witness :
  PyNum.in_unit
    (confidence
       (synthesize "REAL" 0.9 [rated "Unproven"; rated "False"; rated "True"]))
  /\ (confidence
        (synthesize "REAL" 0.9 [rated "False"; rated "Pants on Fire"])
      <=? 0.95) = true.
Proof.
  split.
  - apply (C7_confidence_bounds "REAL" 0.9
             [rated "Unproven"; rated "False"; rated "True"]).
    split; reflexivity.
  - apply (C7_confidence_bounds "REAL" 0.9
             [rated "False"; rated "Pants on Fire"]).
    vm_compute. lia.
Defined.

End CascadeFacts.

(** ** The analysis pipeline *)

Module PipelineFacts.

Import Scenarios.

#[local] Open Scope float_scope.

Lemma unconfigured_key environ :
  not_configured environ ->
  FactCheckService.is_empty
    (FactCheckService.api_key (FactCheckService.init environ))
  || String.eqb (FactCheckService.api_key (FactCheckService.init environ))
       "your_api_key_here" = true.
Proof.
  unfold FactCheckService.init, FactCheckService.getenv. cbn.
  intros [H|[H|H]]; rewrite H; reflexivity.
Qed.

(** Without a usable key [check_claims] returns the empty list and leaves
    the world as it was. *)
Lemma check_claims_unconfigured svc text w :
  FactCheckService.is_empty (FactCheckService.api_key svc)
  || String.eqb (FactCheckService.api_key svc) "your_api_key_here" = true ->
  FactCheckService.check_claims svc text w = (inr [], w).
Proof.
  intros H. unfold FactCheckService.check_claims. rewrite H. reflexivity.
Qed.

(** [check_claims] never raises; it may only extend the log of requests. *)
Lemma check_claims_frame svc text w :
  let w' := snd (FactCheckService.check_claims svc text w) in
  (exists fcs, fst (FactCheckService.check_claims svc text w) = inr fcs)
  /\ Py.clock w' = Py.clock w
  /\ Py.ticks w' = Py.ticks w
  /\ Py.model w' = Py.model w
  /\ Py.network w' = Py.network w.
Proof.
  unfold FactCheckService.check_claims.
  destruct (_ || _); [cbn; eauto 10|].
  unfold Py.try_except, Py.bind, Py.client_get, Py.lift, Py.ret.
  destruct (Py.network w _) as [e|resp]; cbn.
  - destruct e; cbn; eauto 10.
  - destruct (negb _); cbn; [eauto 10|].
    destruct (Py.json resp) as [e|data]; cbn; [|eauto 10].
    destruct e; cbn; eauto 10.
Qed.

(** A failed retrieval yields the empty list, in any world with that
    remote API. *)
Lemma check_claims_degraded svc text w :
  degraded (Py.network w (FactCheckService.search_request svc text)) = true ->
  fst (FactCheckService.check_claims svc text w) = inr [].
Proof.
  intros H. unfold FactCheckService.check_claims.
  destruct (_ || _); [reflexivity|].
  unfold Py.try_except, Py.bind, Py.client_get, Py.lift, Py.ret.
  destruct (Py.network w _) as [e|resp]; cbn in *.
  - destruct e; reflexivity.
  - destruct (negb _); cbn in *; [reflexivity|].
    destruct (Py.json resp) as [e|data]; cbn; [|discriminate H].
    destruct e; reflexivity.
Qed.

(** An empty answer of the remote API yields the empty list. *)
Lemma check_claims_no_results svc text w :
  fst (FactCheckService.check_claims svc text (with_network w no_results))
  = inr [].
Proof.
  unfold FactCheckService.check_claims.
  destruct (_ || _); reflexivity.
Qed.

(** An analysis whose retrieval returned the empty list answers with the
    model-only response, provided the model's confidence passes the
    validation of the response. *)
Lemma analyze_text_ml_only svc text w i :
  Py.model w text = inr i ->
  fst (FactCheckService.check_claims svc text (snd (Py.time_time w)))
  = inr [] ->
  PyNum.in_unit (MLService.probs_at i) ->
  fst (Analyze.analyze_text svc text w) = inr (ml_only_response i w).
Proof.
  intros Hm Hfc [H0 H1].
  destruct (check_claims_frame svc text (snd (Py.time_time w)))
    as (_ & Hclock & Hticks & _).
  unfold Analyze.analyze_text, Py.bind, Py.try_except, MLService.predict,
    Py.run_model, Py.try_except, Py.bind, Py.ret.
  cbn [Py.time_time fst snd Py.model Py.clock Py.ticks] in *.
  rewrite Hm.
  destruct (FactCheckService.check_claims svc text _) as [[e|fcs] w'].
  - discriminate Hfc.
  - cbn [fst snd] in Hfc, Hclock, Hticks. injection Hfc as ->.
    cbn [MLService.prediction MLService.confidence].
    rewrite Hclock, Hticks.
    unfold Analyze.AnalyzeResponse_new, Analyze.ge_0_le_1.
    assert (Hconf : SynthesisService.confidence
                      (SynthesisService.synthesize (MLService.label i)
                         (MLService.probs_at i) [])
                    = MLService.probs_at i).
    { cbn [SynthesisService.synthesize]. unfold SynthesisService.ml_rules.
      destruct (0.85 <? MLService.probs_at i),
               (0.65 <? MLService.probs_at i); reflexivity. }
    rewrite Hconf, H0, H1. cbn.
    unfold ml_only_response. rewrite Hconf. reflexivity.
Qed.

(** The result of an analysis depends on the world only through the
    clock, the classifier and the outcome of the retrieval. *)
Lemma analyze_text_ext svc text w1 w2 :
  Py.clock w1 = Py.clock w2 ->
  Py.ticks w1 = Py.ticks w2 ->
  Py.model w1 = Py.model w2 ->
  fst (FactCheckService.check_claims svc text (snd (Py.time_time w1)))
  = fst (FactCheckService.check_claims svc text (snd (Py.time_time w2))) ->
  fst (Analyze.analyze_text svc text w1)
  = fst (Analyze.analyze_text svc text w2).
Proof.
  intros Hclock Hticks Hmodel Hfc.
  destruct (check_claims_frame svc text (snd (Py.time_time w1)))
    as (_ & Hc1 & Ht1 & _).
  destruct (check_claims_frame svc text (snd (Py.time_time w2)))
    as (_ & Hc2 & Ht2 & _).
  unfold Analyze.analyze_text, Py.bind, Py.try_except, MLService.predict,
    Py.run_model, Py.try_except, Py.bind, Py.ret.
  cbn [Py.time_time fst snd Py.model Py.clock Py.ticks] in *.
  rewrite <- Hmodel, <- Hclock, <- Hticks in *.
  destruct (Py.model w1 text) as [e|i]; [reflexivity|].
  destruct (FactCheckService.check_claims svc text _) as [[e1|fcs1] w1'],
           (FactCheckService.check_claims svc text _) as [[e2|fcs2] w2'];
    cbn [fst snd] in *; try discriminate Hfc; injection Hfc as ->.
  - reflexivity.
  - rewrite Hc1, Ht1, Hc2, Ht2.
    unfold Analyze.AnalyzeResponse_new, Py.ret, Py.raise.
    destruct (_ && _); reflexivity.
Qed.

(** C8: when the retrieval call raises (a timeout or any other exception),
    answers with a status other than 200 or sends an undecodable body,
    [check_claims] returns the empty list, and the analysis has the result
    of the same request against a remote API that finds nothing: with a
    model confidence in [0, 1] it succeeds with the model-only response. *)
Theorem C8_retrieval_failure_degrades
    (svc : FactCheckService.t) (text : string) (w : Py.world) :
  degraded (Py.network w (FactCheckService.search_request svc text)) = true ->
  fst (FactCheckService.check_claims svc text w) = inr []
  /\ fst (Analyze.analyze_text svc text w)
     = fst (Analyze.analyze_text svc text (with_network w no_results))
  /\ (forall i,
        Py.model w text = inr i ->
        PyNum.in_unit (MLService.probs_at i) ->
        fst (Analyze.analyze_text svc text w) = inr (ml_only_response i w)).
Proof.
  intros Hd.
  assert (Hfc : fst (FactCheckService.check_claims svc text
                       (snd (Py.time_time w))) = inr [])
    by (apply check_claims_degraded; exact Hd).
  split; [apply check_claims_degraded; exact Hd|]. split.
  - apply analyze_text_ext; try reflexivity.
    rewrite Hfc. symmetry.
    apply (check_claims_no_results svc text (snd (Py.time_time w))).
  - intros i Hm Hi. apply analyze_text_ml_only; assumption.
Qed.

Lemma C8_retrieval_failure_degrades_witness :
  fst (FactCheckService.check_claims configured "Some news text"
         (start confident_real times_out)) = inr []
  /\ fst (Analyze.analyze_text configured "Some news text"
            (start confident_real times_out))
     = fst (Analyze.analyze_text configured "Some news text"
              (with_network (start confident_real times_out) no_results))
  /\ (forall i,
        Py.model (start confident_real times_out) "Some news text" = inr i ->
        PyNum.in_unit (MLService.probs_at i) ->
        fst (Analyze.analyze_text configured "Some news text"
               (start confident_real times_out))
        = inr (ml_only_response i (start confident_real times_out))).
Proof.
  apply (C8_retrieval_failure_degrades configured "Some news text"
           (start confident_real times_out)).
  reflexivity.
Defined.

(** C9: when the classifier's [predict] raises, the analysis raises a
    single [HTTPException] with status 500 that carries the message of the
    failure; no response is produced and the remote API is not asked. *)
Theorem C9_classifier_failure_is_fatal
    (svc : FactCheckService.t) (text : string) (w : Py.world) (e : Py.exn) :
  Py.model w text = inl e ->
  fst (Analyze.analyze_text svc text w)
  = inl (Py.HTTPException 500 ("Analysis failed: " ++ Py.str e))
  /\ (forall response,
        fst (Analyze.analyze_text svc text w) <> inr response)
  /\ Py.sent (snd (Analyze.analyze_text svc text w)) = Py.sent w.
Proof.
  intros Hm.
  unfold Analyze.analyze_text, Py.bind, Py.try_except, MLService.predict,
    Py.run_model, Py.try_except, Py.bind, Py.ret, Py.raise.
  cbn [Py.time_time fst snd Py.model Py.clock Py.ticks].
  rewrite Hm. cbn. repeat split. intros response H. discriminate H.
Qed.

Lemma C9_classifier_failure_is_fatal_witness :
  fst (Analyze.analyze_text configured "Some news text"
         (start broken_model no_results))
  = inl (Py.HTTPException 500 "Analysis failed: model not loaded")
  /\ (forall response,
        fst (Analyze.analyze_text configured "Some news text"
               (start broken_model no_results)) <> inr response)
  /\ Py.sent (snd (Analyze.analyze_text configured "Some news text"
                     (start broken_model no_results))) = [].
Proof.
  apply (C9_classifier_failure_is_fatal configured "Some news text"
           (start broken_model no_results) (Py.Exception "model not loaded")).
  reflexivity.
Defined.

(** C10: when [GOOGLE_FACT_CHECK_API_KEY] is unset, empty or the
    placeholder, [check_claims] returns the empty list for every text
    without issuing a request, and every analysis that the classifier
    answers with a confidence in [0, 1] returns the model-only response. *)
Theorem C10_unconfigured_key_means_no_evidence
    (environ : gmap string string) (text : string) (w : Py.world) :
  not_configured environ ->
  let svc := FactCheckService.init environ in
  FactCheckService.check_claims svc text w = (inr [], w)
  /\ Py.sent (snd (Analyze.analyze_text svc text w)) = Py.sent w
  /\ (forall i,
        Py.model w text = inr i ->
        PyNum.in_unit (MLService.probs_at i) ->
        fst (Analyze.analyze_text svc text w) = inr (ml_only_response i w)).
Proof.
  intros Henv svc.
  pose proof (unconfigured_key environ Henv) as Hkey. fold svc in Hkey.
  split; [apply check_claims_unconfigured; exact Hkey|]. split.
  - unfold Analyze.analyze_text, Py.bind, Py.try_except, MLService.predict,
      Py.run_model, Py.try_except, Py.bind, Py.ret, Py.raise.
    cbn [Py.time_time fst snd Py.model Py.clock Py.ticks].
    destruct (Py.model w text) as [e|i]; [reflexivity|].
    rewrite (check_claims_unconfigured svc text _ Hkey).
    unfold Analyze.AnalyzeResponse_new, Py.ret, Py.raise.
    cbn [Py.time_time fst snd Py.model Py.clock Py.ticks].
    destruct (_ && _); reflexivity.
  - intros i Hm Hi. apply analyze_text_ml_only; try assumption.
    rewrite (check_claims_unconfigured svc text _ Hkey). reflexivity.
Qed.

Lemma C10_unconfigured_key_means_no_evidence_witness :
  let environ : gmap string string :=
    <["GOOGLE_FACT_CHECK_API_KEY" := "your_api_key_here"]> ∅ in
  let svc := FactCheckService.init environ in
  let w := start confident_real times_out in
  FactCheckService.check_claims svc "Some news text" w = (inr [], w)
  /\ Py.sent (snd (Analyze.analyze_text svc "Some news text" w)) = Py.sent w
  /\ (forall i,
        Py.model w "Some news text" = inr i ->
        PyNum.in_unit (MLService.probs_at i) ->
        fst (Analyze.analyze_text svc "Some news text" w)
        = inr (ml_only_response i w)).
Proof.
  apply (C10_unconfigured_key_means_no_evidence
           (<["GOOGLE_FACT_CHECK_API_KEY" := "your_api_key_here"]> ∅)
           "Some news text" (start confident_real times_out)).
  right. right. vm_compute. reflexivity.
Defined.

End PipelineFacts.

(** * Further properties of the services *)

(** ** Substrings and case *)

Module StringFacts.

Import PyStr.

Lemma append_cons c (a b : string) : String c a ++ b = String c (a ++ b).
Proof. reflexivity. Qed.

Lemma append_nil (b : string) : EmptyString ++ b = b.
Proof. reflexivity. Qed.

Lemma lower_app a b : lower (a ++ b) = lower a ++ lower b.
Proof.
  induction a as [|c a IH]; [reflexivity|].
  rewrite !append_cons. cbn [lower]. rewrite IH, append_cons. reflexivity.
Qed.

Lemma lower_char_idem c : lower_char (lower_char c) = lower_char c.
Proof.
  destruct c as [[] [] [] [] [] [] [] []]; reflexivity.
Qed.

Lemma lower_idem s : lower (lower s) = lower s.
Proof.
  induction s as [|c s IH]; [reflexivity|].
  simpl. rewrite lower_char_idem. f_equal. exact IH.
Qed.

Lemma prefix_app sub post : String.prefix sub (sub ++ post) = true.
Proof.
  induction sub as [|c sub IH]; [destruct post; reflexivity|].
  rewrite append_cons. cbn [String.prefix].
  destruct (ascii_dec c c) as [_|Hne]; [exact IH|congruence].
Qed.

Lemma prefix_inv sub : forall s,
  String.prefix sub s = true -> exists post, s = sub ++ post.
Proof.
  induction sub as [|c sub IH]; intros s H.
  - exists s. reflexivity.
  - destruct s as [|d s]; [discriminate H|]. cbn [String.prefix] in H.
    destruct (ascii_dec c d) as [->|_]; [|discriminate H].
    destruct (IH s H) as [post ->]. exists post. reflexivity.
Qed.

Lemma contains_app sub pre post : contains sub (pre ++ sub ++ post) = true.
Proof.
  induction pre as [|c pre IH].
  - rewrite append_nil. destruct (sub ++ post) eqn:E; cbn [contains];
      rewrite <- E, prefix_app; reflexivity.
  - rewrite append_cons. cbn [contains]. rewrite IH. apply orb_true_r.
Qed.

(** [contains] is the substring test of Python's [in]. *)
Lemma contains_iff sub s :
  contains sub s = true <-> exists pre post, s = pre ++ sub ++ post.
Proof.
  split.
  - induction s as [|c s IH]; cbn [contains]; intros H.
    + rewrite orb_false_r in H. apply prefix_inv in H as [post ->].
      exists EmptyString, post. reflexivity.
    + apply orb_prop in H as [H|H].
      * apply prefix_inv in H as [post ->].
        exists EmptyString, post. reflexivity.
      * destruct (IH H) as (pre & post & ->).
        exists (String c pre), post. reflexivity.
  - intros (pre & post & ->). apply contains_app.
Qed.

Lemma append_assoc (a b c : string) : (a ++ b) ++ c = a ++ b ++ c.
Proof.
  induction a as [|x a IH]; [reflexivity|].
  rewrite !append_cons, IH. reflexivity.
Qed.

(** A string that contains [a ++ b] contains [b]. *)
Lemma contains_suffix a b s :
  contains (a ++ b) s = true -> contains b s = true.
Proof.
  rewrite !contains_iff. intros (pre & post & ->).
  exists (pre ++ a), post. rewrite !append_assoc. reflexivity.
Qed.

End StringFacts.

(** ** Ratings and the tally, beyond the claims *)

Module RatingFacts.

Import PyStr SynthesisService Tally.

(** The entries "mostly false" and "mostly true" of the two rating lists
    are subsumed by "false" and "true": a rating is in the falsity set
    exactly when its lower-case form contains "false" or "pants on fire",
    and in the truth set exactly when it contains "true" or "correct". *)
Theorem rating_sets_reduced (fc : fact_check) :
  any_rating false_ratings fc
  = contains "false" (lower (fc_rating fc))
    || contains "pants on fire" (lower (fc_rating fc))
  /\ any_rating true_ratings fc
     = contains "true" (lower (fc_rating fc))
       || contains "correct" (lower (fc_rating fc)).
Proof.
  unfold any_rating, false_ratings, true_ratings. cbn [existsb].
  set (r := lower (fc_rating fc)).
  pose proof (StringFacts.contains_suffix "mostly " "false" r) as Hf.
  pose proof (StringFacts.contains_suffix "mostly " "true" r) as Ht.
  change ("mostly " ++ "false") with "mostly false" in Hf.
  change ("mostly " ++ "true") with "mostly true" in Ht.
  split.
  - destruct (contains "mostly false" r);
      [rewrite (Hf eq_refl)|]; destruct (contains "false" r),
      (contains "pants on fire" r); reflexivity.
  - destruct (contains "mostly true" r);
      [rewrite (Ht eq_refl)|]; destruct (contains "true" r),
      (contains "correct" r); reflexivity.
Qed.

(** A rating counts as true wherever "true" or "correct" occurs in it,
    also inside another word. *)
Lemma embedded_truth_word fc pre post :
  lower (fc_rating fc) = pre ++ "true" ++ post
  \/ lower (fc_rating fc) = pre ++ "correct" ++ post ->
  any_rating true_ratings fc = true.
Proof.
  intros H. unfold any_rating, true_ratings. cbn [existsb].
  destruct H as [-> | ->]; rewrite StringFacts.contains_app;
    [reflexivity|].
  rewrite orb_true_l, !orb_true_r. reflexivity.
Qed.

(** A single fact-check whose rating contains "true" or "correct" anywhere
    (also inside a negation such as "Incorrect" or "Untrue") and no falsity
    substring gives the verdict REAL, whatever the model predicts. *)
Theorem lone_embedded_truth_word_is_real
    (fc : fact_check) (pre post ml_prediction : string) (c : float) :
  lower (fc_rating fc) = pre ++ "true" ++ post
  \/ lower (fc_rating fc) = pre ++ "correct" ++ post ->
  any_rating false_ratings fc = false ->
  false_count [fc] = 0 /\ true_count [fc] = 1
  /\ verdict (synthesize ml_prediction c [fc]) = "REAL".
Proof.
  intros Ht Hf. apply (embedded_truth_word fc pre post) in Ht.
  assert (E0 : false_count [fc] = 0).
  { unfold false_count. rewrite TallyFacts.sum_1_if_cons, Hf. reflexivity. }
  assert (E1 : true_count [fc] = 1).
  { unfold true_count. rewrite TallyFacts.sum_1_if_cons, Ht. reflexivity. }
  split; [exact E0|]. split; [exact E1|].
  unfold synthesize. rewrite E0, E1. reflexivity.
Qed.

Lemma lone_embedded_truth_word_is_real_witness :
  false_count [rated "Incorrect"] = 0 /\ true_count [rated "Incorrect"] = 1
  /\ verdict (synthesize "FAKE" 1 [rated "Incorrect"]) = "REAL".
Proof.
  apply (lone_embedded_truth_word_is_real
           (rated "Incorrect") "in" "" "FAKE" 1%float).
  - right. reflexivity.
  - reflexivity.
Defined.

End RatingFacts.

(** ** The cascade, beyond the claims *)

Module SynthesisMore.

Import PyStr SynthesisService Tally.

#[local] Open Scope float_scope.

(** [synthesize] reads a non-empty evidence list only through its two
    counts. *)
Lemma synthesize_by_counts ml_prediction c fcs fcs' :
  fcs <> [] -> fcs' <> [] ->
  false_count fcs = false_count fcs' ->
  true_count fcs = true_count fcs' ->
  synthesize ml_prediction c fcs = synthesize ml_prediction c fcs'.
Proof.
  intros Hne Hne' Hf Ht.
  destruct fcs as [|fc l]; [congruence|].
  destruct fcs' as [|fc' l']; [congruence|].
  unfold synthesize. rewrite Hf, Ht. reflexivity.
Qed.

Lemma sum_1_if_perm cond l l' :
  Permutation l l' -> sum_1_if cond l = sum_1_if cond l'.
Proof.
  induction 1 as [|x l l' _ IH|x y l|l l' l'' _ IH1 _ IH2].
  - reflexivity.
  - rewrite !TallyFacts.sum_1_if_cons, IH. reflexivity.
  - rewrite !TallyFacts.sum_1_if_cons. lia.
  - congruence.
Qed.

(** The result does not depend on the order of the evidence. *)
Theorem synthesize_order_independent
    (ml_prediction : string) (c : float) (fcs fcs' : list fact_check) :
  Permutation fcs fcs' ->
  synthesize ml_prediction c fcs = synthesize ml_prediction c fcs'.
Proof.
  intros Hp.
  destruct fcs as [|fc l].
  - apply Permutation_nil in Hp. subst fcs'. reflexivity.
  - apply synthesize_by_counts.
    + discriminate.
    + intros ->. apply Permutation_sym, Permutation_nil in Hp.
      discriminate Hp.
    + apply sum_1_if_perm, Hp.
    + apply sum_1_if_perm, Hp.
Qed.

Lemma synthesize_order_independent_witness :
  synthesize "REAL" 0.9 [rated "False"; rated "True"; rated "Unproven"]
  = synthesize "REAL" 0.9 [rated "Unproven"; rated "False"; rated "True"].
Proof.
  apply synthesize_order_independent.
  apply Permutation_sym, (Permutation_cons_app [_; _] []).
  apply Permutation_refl.
Defined.

(** Once there is evidence, items with an undetermined rating change
    nothing: they can be added or removed freely.  (Added to an empty
    list they do change the result, from the model-only rules to the
    tie-break rules.) *)
Theorem undetermined_items_ignored
    (ml_prediction : string) (c : float) (fc : fact_check)
    (fcs : list fact_check) :
  matches_neither fc = true ->
  fcs <> [] ->
  synthesize ml_prediction c (fc :: fcs) = synthesize ml_prediction c fcs.
Proof.
  intros Hn Hne.
  apply synthesize_by_counts; try assumption; try discriminate.
  - unfold false_count. rewrite TallyFacts.sum_1_if_cons.
    apply SynthesisFacts.matches_neither_false in Hn as [-> _].
    reflexivity.
  - unfold true_count. rewrite TallyFacts.sum_1_if_cons.
    apply SynthesisFacts.matches_neither_false in Hn as [_ ->].
    reflexivity.
Qed.

Lemma undetermined_items_ignored_witness :
  synthesize "REAL" 0.9 [rated "Unproven"; rated "False"]
  = synthesize "REAL" 0.9 [rated "False"].
Proof.
  apply undetermined_items_ignored.
  - reflexivity.
  - discriminate.
Defined.

Lemma sum_1_if_ext cond l l' :
  Forall2 (fun a b => cond a = cond b) l l' ->
  sum_1_if cond l = sum_1_if cond l'.
Proof.
  induction 1 as [|a b l l' Hab _ IH]; [reflexivity|].
  rewrite !TallyFacts.sum_1_if_cons, Hab, IH. reflexivity.
Qed.

(** Only the ratings matter, and only up to case: two evidence lists whose
    items have pairwise the same lower-case rating give the same result,
    whatever their claims, claimants, sources and links. *)
Theorem synthesize_reads_ratings_only
    (ml_prediction : string) (c : float) (fcs fcs' : list fact_check) :
  Forall2 (fun a b => lower (fc_rating a) = lower (fc_rating b)) fcs fcs' ->
  synthesize ml_prediction c fcs = synthesize ml_prediction c fcs'.
Proof.
  intros H.
  destruct H as [|a b l l' Hab Hl]; [reflexivity|].
  assert (H : Forall2 (fun a b => lower (fc_rating a) = lower (fc_rating b))
                (a :: l) (b :: l')) by (constructor; assumption).
  apply synthesize_by_counts; try discriminate;
    apply sum_1_if_ext; eapply Forall2_impl; try exact H;
    intros x y Hxy; unfold any_rating; rewrite Hxy; reflexivity.
Qed.

Lemma synthesize_reads_ratings_only_witness :
  synthesize "FAKE" 0.7 [rated "FALSE"]
  = synthesize "FAKE" 0.7
      [{| fc_claim := "another claim"; fc_claimant := "Someone";
          fc_rating := "false"; fc_source := "Checker";
          fc_url := Some "https://example.org" |}].
Proof.
  apply synthesize_reads_ratings_only. repeat constructor.
Defined.

(** Rule 2: a true majority gives REAL with the capped confidence. *)
Theorem true_majority
    (ml_prediction : string) (c : float) (fcs : list fact_check) :
  (false_count fcs < true_count fcs)%nat ->
  let r := synthesize ml_prediction c fcs in
  verdict r = "REAL"%string
  /\ confidence r
     = PyNum.min 0.95 (0.7 + PyNum.float_of_int (true_count fcs) * 0.1)
  /\ reasoning r
     = [Lit "Professional fact-checkers verified this claim as true. ";
        FInt (true_count fcs);
        Lit " fact-checker(s) confirmed its accuracy."].
Proof.
  intros Hlt r. unfold r, synthesize.
  destruct fcs as [|fc l]; [inversion Hlt|].
  replace (Nat.ltb (true_count (fc :: l)) (false_count (fc :: l)))
    with false by (symmetry; apply Nat.ltb_ge; lia).
  replace (Nat.ltb (false_count (fc :: l)) (true_count (fc :: l)))
    with true by (symmetry; apply Nat.ltb_lt; assumption).
  replace (Nat.ltb 0 (true_count (fc :: l)))
    with true by (symmetry; apply Nat.ltb_lt; lia).
  repeat split.
Qed.

Lemma true_majority_witness :
  let r := synthesize "FAKE" 0.99 [rated "True"; rated "Correct"] in
  verdict r = "REAL"%string
  /\ confidence r
     = PyNum.min 0.95
         (0.7 + PyNum.float_of_int
                  (true_count [rated "True"; rated "Correct"]) * 0.1)
  /\ reasoning r
     = [Lit "Professional fact-checkers verified this claim as true. ";
        FInt (true_count [rated "True"; rated "Correct"]);
        Lit " fact-checker(s) confirmed its accuracy."].
Proof.
  apply (true_majority "FAKE" 0.99 [rated "True"; rated "Correct"]).
  vm_compute. lia.
Defined.

(** Rules 3 and 4 for any tie: with evidence and equal counts (zero or
    not) the model decides only when its confidence exceeds 0.8, with the
    confidence scaled by 0.85; otherwise, also for a confidence that is
    not a number, the verdict is UNCERTAIN at 0.5. *)
Theorem tie_break
    (ml_prediction : string) (c : float) (fcs : list fact_check) :
  fcs <> [] ->
  false_count fcs = true_count fcs ->
  let r := synthesize ml_prediction c fcs in
  ((0.8 <? c) = true ->
   verdict r = ml_prediction /\ confidence r = c * 0.85)
  /\ ((0.8 <? c) = false ->
      verdict r = "UNCERTAIN"%string /\ confidence r = 0.5).
Proof.
  intros Hne Heq r. unfold r, synthesize.
  destruct fcs as [|fc l]; [congruence|].
  rewrite Heq, Nat.ltb_irrefl, Nat.eqb_refl. cbn [andb].
  split; intros ->; split; reflexivity.
Qed.

Lemma tie_break_witness :
  let r := synthesize "REAL" 0.6 [rated "True"; rated "False"] in
  ((0.8 <? 0.6) = true ->
   verdict r = "REAL"%string /\ confidence r = 0.6 * 0.85)
  /\ ((0.8 <? 0.6) = false ->
      verdict r = "UNCERTAIN"%string /\ confidence r = 0.5).
Proof.
  apply (tie_break "REAL" 0.6 [rated "True"; rated "False"]).
  - discriminate.
  - reflexivity.
Defined.

(** The verdict is FAKE, REAL, UNCERTAIN or the label it was given: with a
    label from the classifier it is one of the three words. *)
Lemma verdict_cases
    (ml_prediction : string) (c : float) (fcs : list fact_check) :
  In (verdict (synthesize ml_prediction c fcs))
     ["FAKE"; "REAL"; "UNCERTAIN"; ml_prediction]%string.
Proof.
  unfold synthesize, ml_rules.
  destruct fcs as [|fc l];
    repeat match goal with
           | |- context [if ?b then _ else _] => destruct b
           end; cbn; tauto.
Qed.

End SynthesisMore.

(** ** The fact-check service, beyond the claims *)

Module FactCheckFacts.

Import Notions.




(** The outcome and the frame of a call of [check_claims], field by
    field. *)
Lemma check_claims_run
    (svc : FactCheckService.t) (text : string) (w : Py.world) :
  let w' := snd (FactCheckService.check_claims svc text w) in
  (exists fcs, fst (FactCheckService.check_claims svc text w) = inr fcs)
  /\ Py.clock w' = Py.clock w
  /\ Py.ticks w' = Py.ticks w
  /\ Py.model w' = Py.model w
  /\ Py.network w' = Py.network w
  /\ Py.sent w'
     = if FactCheckService.is_empty (FactCheckService.api_key svc)
          || String.eqb (FactCheckService.api_key svc) "your_api_key_here"
       then Py.sent w
       else (Py.sent w ++ [FactCheckService.search_request svc text])%list.
Proof.
  unfold FactCheckService.check_claims.
  destruct (_ || _); [cbn; eauto 10|].
  unfold Py.try_except, Py.bind, Py.client_get, Py.lift, Py.ret.
  destruct (Py.network w _) as [e|resp]; cbn.
  - destruct e; cbn; eauto 10.
  - destruct (negb _); cbn; [eauto 10|].
    destruct (Py.json resp) as [e|data]; cbn; [|eauto 10].
    destruct e; cbn; eauto 10.
Qed.

(** [check_claims] never raises, whatever the remote API does, and the
    only trace it leaves is the request it sends: without a usable key the
    world is untouched, with one exactly one request is added to those
    sent, and the clock, the classifier and the remote API stay as they
    were. *)
Theorem check_claims_contained
    (svc : FactCheckService.t) (text : string) (w : Py.world) :
  exists fcs,
    FactCheckService.check_claims svc text w
    = (inr fcs,
       if FactCheckService.is_empty (FactCheckService.api_key svc)
          || String.eqb (FactCheckService.api_key svc) "your_api_key_here"
       then w
       else {| Py.clock := Py.clock w; Py.ticks := Py.ticks w;
               Py.model := Py.model w; Py.network := Py.network w;
               Py.sent :=
                 (Py.sent w
                  ++ [FactCheckService.search_request svc text])%list |}).
Proof.
  destruct (check_claims_run svc text w)
    as ([fcs Hfcs] & Hc & Ht & Hm & Hn & Hs).
  exists fcs.
  destruct (FactCheckService.check_claims svc text w) as [r w'].
  cbn [fst snd] in *. subst r. f_equal.
  destruct w as [c t m n s], w' as [c' t' m' n' s'].
  cbn [Py.clock Py.ticks Py.model Py.network Py.sent] in *. subst.
  destruct (_ || _); reflexivity.
Qed.



Lemma length_flat_map {A B} (f : A -> list B) l :
  List.length (List.flat_map f l)
  = list_sum (List.map (fun a => List.length (f a)) l).
Proof.
  induction l as [|a l IH]; [reflexivity|].
  cbn. rewrite List.length_app, IH. reflexivity.
Qed.

(** The parsed list has one entry per review of the first five claims, in
    the order of the answer: claims beyond the fifth and claims without
    reviews contribute nothing. *)
Theorem parse_results_first_five (data : Py.data_json) :
  FactCheckService.parse_results data
  = FactCheckService.parse_results
      {| Py.claims := Some (List.firstn 5 (claims_of data)) |}
  /\ List.length (FactCheckService.parse_results data)
     = list_sum (List.map review_count (List.firstn 5 (claims_of data))).
Proof.
  unfold FactCheckService.parse_results, claims_of.
  destruct (Py.claims data) as [cs|]; cbn [Py.claims]; [|split; reflexivity].
  split.
  - rewrite List.firstn_firstn. reflexivity.
  - rewrite length_flat_map. f_equal. apply List.map_ext.
    intros claim. rewrite List.length_map. unfold review_count.
    destruct (Py.claimReview claim); reflexivity.
Qed.

Lemma Forall_firstn {A} (P : A -> Prop) n : forall l,
  Forall P l -> Forall P (List.firstn n l).
Proof.
  induction n as [|n IH]; intros l H; [constructor|].
  destruct H as [|a l Ha Hl]; constructor; auto.
Qed.

(** A review without a textual rating is recorded with the rating
    "Unknown", which is in neither rating set: an answer whose reviews all
    lack a rating yields evidence with the tally (0, 0). *)
Theorem unrated_reviews_tally_zero (data : Py.data_json) :
  unrated data ->
  Forall (fun fc => fc_rating fc = "Unknown")
    (FactCheckService.parse_results data)
  /\ SynthesisService.false_count (FactCheckService.parse_results data) = 0
  /\ SynthesisService.true_count (FactCheckService.parse_results data) = 0.
Proof.
  intros H.
  assert (Hall : Forall (fun fc => fc_rating fc = "Unknown")
                   (FactCheckService.parse_results data)).
  { unfold FactCheckService.parse_results, unrated, claims_of in *.
    destruct (Py.claims data) as [cs|]; [|constructor].
    apply List.Forall_flat_map.
    eapply List.Forall_impl; [|apply Forall_firstn; exact H].
    intros claim Hclaim. cbn beta in Hclaim.
    destruct (Py.claimReview claim) as [reviews|]; cbn; [|constructor].
    apply List.Forall_map.
    eapply List.Forall_impl; [|exact Hclaim].
    intros review Hreview. cbn. rewrite Hreview. reflexivity. }
  split; [exact Hall|].
  apply SynthesisFacts.undetermined_counts.
  eapply List.Forall_impl; [|exact Hall].
  intros fc Hfc. unfold Tally.matches_neither, SynthesisService.any_rating.
  rewrite Hfc. reflexivity.
Qed.

Lemma unrated_reviews_tally_zero_witness :
  let data :=
    {| Py.claims :=
         Some [ {| Py.text := Some "A claim"; Py.claimant := None;
                   Py.claimReview :=
                     Some [ {| Py.textualRating := None;
                               Py.publisher := None;
                               Py.url := None |} ] |} ] |} in
  Forall (fun fc => fc_rating fc = "Unknown")
    (FactCheckService.parse_results data)
  /\ SynthesisService.false_count (FactCheckService.parse_results data) = 0
  /\ SynthesisService.true_count (FactCheckService.parse_results data) = 0.
Proof.
  apply unrated_reviews_tally_zero. repeat constructor.
Defined.

End FactCheckFacts.

(** ** The analysis endpoint, beyond the claims *)

Module AnalyzeFacts.

Import Notions.

#[local] Open Scope float_scope.


(** One run of [analyze_text], step by step: the first reading of the
    clock, the classifier, the retrieval, the second reading and the
    validation of the response. *)
Lemma analyze_text_run svc text w :
  Analyze.analyze_text svc text w
  = let w1 := snd (Py.time_time w) in
    match Py.model w text with
    | inl e =>
      (inl (Py.HTTPException 500 ("Analysis failed: " ++ Py.str e)), w1)
    | inr i =>
      match FactCheckService.check_claims svc text w1 with
      | (inl e, w2) =>
        (inl (Py.HTTPException 500 ("Analysis failed: " ++ Py.str e)), w2)
      | (inr fcs, w2) =>
        let v :=
          SynthesisService.synthesize (MLService.label i)
            (MLService.probs_at i) fcs in
        let w3 := snd (Py.time_time w2) in
        if Analyze.ge_0_le_1 (SynthesisService.confidence v)
           && Analyze.ge_0_le_1 (MLService.probs_at i)
        then
          (inr {| Analyze.verdict := SynthesisService.verdict v;
                  Analyze.confidence := SynthesisService.confidence v;
                  Analyze.ml_prediction := MLService.label i;
                  Analyze.ml_confidence := MLService.probs_at i;
                  Analyze.fact_checks :=
                    List.map Analyze.FactCheckResult_of fcs;
                  Analyze.reasoning := SynthesisService.reasoning v;
                  Analyze.processing_time_ms :=
                    (Py.clock w2 (Py.ticks w2) - Py.clock w (Py.ticks w))
                    * 1000 |}, w3)
        else
          (inl (Py.HTTPException 500
                  ("Analysis failed: "
                   ++ "validation error for AnalyzeResponse")), w3)
      end
    end.
Proof.
  unfold Analyze.analyze_text, Py.bind, Py.try_except, MLService.predict,
    Py.run_model, Py.try_except, Py.bind, Py.ret, Py.raise.
  cbn [Py.time_time fst snd Py.model Py.clock Py.ticks].
  destruct (Py.model w text) as [e|i]; [reflexivity|].
  destruct (FactCheckService.check_claims svc text _) as [[e|fcs] w2];
    [reflexivity|].
  cbn [MLService.prediction MLService.confidence].
  unfold Analyze.AnalyzeResponse_new, Py.ret, Py.raise.
  destruct (_ && _); reflexivity.
Qed.



(** Every failure of [analyze_text] is a single [HTTPException] with
    status 500 whose detail starts with "Analysis failed: ". *)
Theorem analysis_failures_are_500
    (svc : FactCheckService.t) (text : string) (w : Py.world) (e : Py.exn) :
  fst (Analyze.analyze_text svc text w) = inl e ->
  exists msg, e = Py.HTTPException 500 ("Analysis failed: " ++ msg).
Proof.
  rewrite analyze_text_run. cbv zeta.
  destruct (Py.model w text) as [e0|i]; cbn [fst].
  - intros [= <-]. eauto.
  - destruct (FactCheckService.check_claims svc text _) as [[e1|fcs] w2];
      cbn [fst].
    + intros [= <-]. eauto.
    + destruct (_ && _); cbn [fst]; [discriminate|].
      intros [= <-]. eauto.
Qed.

Lemma analysis_failures_are_500_witness :
  exists msg,
    Py.HTTPException 500 "Analysis failed: model not loaded"
    = Py.HTTPException 500 ("Analysis failed: " ++ msg).
Proof.
  apply (analysis_failures_are_500 Scenarios.configured "Some news text"
           (Scenarios.start Scenarios.broken_model Scenarios.no_results)).
  reflexivity.
Defined.

(** Every response that [analyze_text] returns has both confidences in
    [0, 1], a classifier label FAKE or REAL and a verdict FAKE, REAL or
    UNCERTAIN, for any behaviour of the classifier and the remote API. *)
Theorem response_invariants
    (svc : FactCheckService.t) (text : string) (w : Py.world)
    (response : Analyze.AnalyzeResponse) :
  fst (Analyze.analyze_text svc text w) = inr response ->
  PyNum.in_unit (Analyze.confidence response)
  /\ PyNum.in_unit (Analyze.ml_confidence response)
  /\ In (Analyze.ml_prediction response) ["FAKE"; "REAL"]%string
  /\ In (Analyze.verdict response) ["FAKE"; "REAL"; "UNCERTAIN"]%string.
Proof.
  rewrite analyze_text_run. cbv zeta.
  destruct (Py.model w text) as [e0|i]; cbn [fst]; [discriminate|].
  destruct (FactCheckService.check_claims svc text _) as [[e1|fcs] w2];
    cbn [fst]; [discriminate|].
  destruct (_ && _) eqn:Hvalid; cbn [fst]; [|discriminate].
  intros [= <-].
  cbn [Analyze.confidence Analyze.ml_confidence Analyze.ml_prediction
       Analyze.verdict].
  apply andb_prop in Hvalid as [Hv Hi].
  apply andb_prop in Hv as [V0 V1]. apply andb_prop in Hi as [I0 I1].
  split; [split; assumption|]. split; [split; assumption|].
  assert (Hl : MLService.label i = "FAKE"%string
               \/ MLService.label i = "REAL"%string).
  { unfold MLService.label. destruct (Nat.eqb _ 1); auto. }
  pose proof (SynthesisMore.verdict_cases (MLService.label i)
                (MLService.probs_at i) fcs) as Hvoc.
  destruct Hl as [Hl|Hl]; rewrite Hl in *; cbn [In] in *; tauto.
Qed.

Lemma response_invariants_witness :
  PyNum.in_unit
    (Analyze.confidence
       (Scenarios.ml_only_response
          {| Py.probs_0 := 0.1; Py.probs_1 := 0.9; Py.pred_class := 1 |}
          (Scenarios.start Scenarios.confident_real Scenarios.times_out))).
Proof.
  apply (response_invariants Scenarios.configured "Some news text"
           (Scenarios.start Scenarios.confident_real Scenarios.times_out)).
  reflexivity.
Defined.

(** A classifier confidence outside [0, 1] (a NaN, for instance) fails
    the request with status 500 at the validation of the response, after
    the retrieval has run. *)
Theorem invalid_confidence_is_500
    (svc : FactCheckService.t) (text : string) (w : Py.world)
    (i : Py.inference) :
  Py.model w text = inr i ->
  Analyze.ge_0_le_1 (MLService.probs_at i) = false ->
  (exists msg,
     fst (Analyze.analyze_text svc text w)
     = inl (Py.HTTPException 500 ("Analysis failed: " ++ msg)))
  /\ Py.sent (snd (Analyze.analyze_text svc text w))
     = Py.sent
         (snd (FactCheckService.check_claims svc text
                 (snd (Py.time_time w)))).
Proof.
  intros Hm Hi.
  destruct (FactCheckFacts.check_claims_run svc text
              (snd (Py.time_time w))) as ([fcs Hfcs] & _).
  rewrite analyze_text_run. cbv zeta. rewrite Hm.
  destruct (FactCheckService.check_claims svc text _) as [r w2].
  cbn [fst snd] in *. subst r.
  rewrite Hi, andb_false_r. split; [eexists|]; reflexivity.
Qed.

Lemma invalid_confidence_is_500_witness :
  (exists msg,
     fst (Analyze.analyze_text Scenarios.configured "Some news text"
            (Scenarios.start nan_model (answers sample_data)))
     = inl (Py.HTTPException 500 ("Analysis failed: " ++ msg)))
  /\ Py.sent
       (snd (Analyze.analyze_text Scenarios.configured "Some news text"
               (Scenarios.start nan_model (answers sample_data))))
     = Py.sent
         (snd (FactCheckService.check_claims Scenarios.configured
                 "Some news text"
                 (snd (Py.time_time
                         (Scenarios.start nan_model
                            (answers sample_data)))))).
Proof.
  apply (invalid_confidence_is_500 Scenarios.configured "Some news text"
           (Scenarios.start nan_model (answers sample_data))
           {| Py.probs_0 := nan; Py.probs_1 := nan; Py.pred_class := 0 |});
    reflexivity.
Defined.


End AnalyzeFacts.

(** ** The request model *)

Module RequestFacts.

Import PyText Request.
















End RequestFacts.

(** ** The error handler and the health endpoint *)

Module MainFacts.

Import Main.

(** The handler always answers 500 with the detail "Internal server
    error"; it repeats the exception's message only when ENVIRONMENT is
    exactly "development".  With ENVIRONMENT unset the health endpoint
    reports "development" while the handler hides the message: the two
    defaults differ. *)
Theorem environment_defaults
    (environ : gmap string string) (exc : Py.exn) (timestamp : string) :
  status_code (global_exception_handler environ exc) = 500%Z
  /\ detail (global_exception_handler environ exc) = "Internal server error"
  /\ (environ !! "ENVIRONMENT" = Some "development" ->
      message (global_exception_handler environ exc) = Py.str exc)
  /\ (environ !! "ENVIRONMENT" <> Some "development" ->
      message (global_exception_handler environ exc) = "An error occurred")
  /\ (environ !! "ENVIRONMENT" = None ->
      environment (health_check environ timestamp) = "development"
      /\ message (global_exception_handler environ exc)
         = "An error occurred").
Proof.
  unfold global_exception_handler, health_check, is_development, getenv,
    FactCheckService.getenv.
  cbn [status_code detail message environment].
  repeat split.
  - intros ->. reflexivity.
  - intros H. destruct (environ !! "ENVIRONMENT") as [v|]; [|reflexivity].
    destruct (String.eqb_spec v "development") as [->|Hne];
      [congruence|reflexivity].
  - rewrite H. reflexivity.
  - rewrite H. reflexivity.
Qed.

End MainFacts.

(** ** Magnitude of rounded results: the values of the confidences *)

Module SFLarge.

Import Notions.

#[local] Open Scope Z_scope.

Lemma fexp_normal x : -1074 <= x - 53 -> fexp prec emax x = x - 53.
Proof. unfold fexp, emin, prec, emax. lia. Qed.

Lemma shr_zero r e : shr r e 0 = (r, e).
Proof. reflexivity. Qed.

Lemma shr_pos r e n :
  shr r e (Zpos n) = (SpecFloat.iter_pos shr_1 n r, e + Zpos n).
Proof. reflexivity. Qed.

(** Rounding a mantissa of at least 53 digits in the normal range: the
    result is an infinity or a finite value whose 53-bit mantissa is at
    least the truncated one. *)
Lemma binary_round_aux_large M e l d :
  Zpos (digits2_pos M) = d -> 53 <= d -> -1074 <= d + e - 53 ->
  binary_round_aux prec emax false (Zpos M) e l = S754_infinity false
  \/ exists p e',
       binary_round_aux prec emax false (Zpos M) e l = S754_finite false p e'
       /\ 2 ^ 52 <= Zpos p
       /\ e + d - 53 <= e'
       /\ (e' = e + d - 53 ->
           Zpos M / 2 ^ (d - 53) <= Zpos p <= Zpos M / 2 ^ (d - 53) + 1).
Proof.
  intros Hd Hd53 Hnorm.
  pose proof (SFRound.digits2_pos_range M) as HM. rewrite Hd in HM.
  unfold binary_round_aux.
  rewrite (SFRound.shr_fexp_pos M d) by exact Hd.
  rewrite fexp_normal by lia.
  replace (d + e - 53 - e) with (d - 53) by lia.
  set (r0 := shr_record_of_loc (Z.pos M) l).
  assert (Hr0 : shr_m r0 = Zpos M) by apply SFSign.shr_record_of_loc_m.
  assert (Hpow : 2 ^ (d - 1) = 2 ^ (d - 53) * 2 ^ 52).
  { rewrite <- Z.pow_add_r by lia. f_equal. lia. }
  assert (Hpow' : 2 ^ d = 2 ^ (d - 53) * 2 ^ 53).
  { rewrite <- Z.pow_add_r by lia. f_equal. lia. }
  assert (Hpos : 0 < 2 ^ (d - 53)) by (apply Z.pow_pos_nonneg; lia).
  assert (Hshift : exists r1,
            shr r0 e (d - 53) = (r1, e + (d - 53))
            /\ shr_m r1 = Zpos M / 2 ^ (d - 53)).
  { destruct (d - 53) as [|sh|sh] eqn:Esh; try lia.
    - exists r0. rewrite shr_zero, Z.add_0_r, Hr0.
      change (2 ^ 0) with 1. rewrite Z.div_1_r. split; reflexivity.
    - exists (SpecFloat.iter_pos shr_1 sh r0). rewrite shr_pos.
      split; [reflexivity|].
      rewrite SFRound.iter_shr_1_div, Hr0 by (rewrite Hr0; lia).
      reflexivity. }
  destruct Hshift as (r1 & -> & Hr1).
  cbv beta iota zeta.
  set (q := Zpos M / 2 ^ (d - 53)) in *.
  assert (Hq : 2 ^ 52 <= q < 2 ^ 53).
  { unfold q. split.
    - apply Z.div_le_lower_bound; [lia|]. rewrite <- Hpow. lia.
    - apply Z.div_lt_upper_bound; [lia|]. rewrite <- Hpow'. lia. }
  pose proof (SFRound.round_nearest_even_bounds (shr_m r1)
                (loc_of_shr_record r1)) as Hq'.
  set (q' := round_nearest_even (shr_m r1) (loc_of_shr_record r1)) in *.
  rewrite Hr1 in Hq'.
  change (2 ^ 52) with 4503599627370496 in *.
  change (2 ^ 53) with 9007199254740992 in *.
  destruct q' as [|qp|qp] eqn:Eq'; try lia.
  destruct (Z_lt_le_dec (Zpos qp) 9007199254740992) as [Hlt|Hge].
  - (* no carry *)
    rewrite (SFRound.shr_fexp_pos qp 53)
      by (apply SFRound.digits2_pos_bounds;
          change (2 ^ (53 - 1)) with 4503599627370496;
          change (2 ^ 53) with 9007199254740992; lia).
    rewrite fexp_normal by lia.
    replace (53 + (e + (d - 53)) - 53 - (e + (d - 53))) with 0 by lia.
    rewrite shr_zero. cbn [shr_m shr_record_of_loc].
    destruct (Z.leb (e + (d - 53)) (emax - prec)); [right|left; reflexivity].
    exists qp, (e + (d - 53)). repeat split; try lia.
  - (* the mantissa rounded up to 2^53 *)
    assert (Hqp : Zpos qp = 9007199254740992) by lia.
    injection Hqp as ->.
    rewrite (SFRound.shr_fexp_pos 9007199254740992 54) by reflexivity.
    rewrite fexp_normal by lia.
    replace (54 + (e + (d - 53)) - 53 - (e + (d - 53))) with 1 by lia.
    rewrite shr_pos. cbn [SpecFloat.iter_pos shr_1 shr_record_of_loc shr_m].
    destruct (Z.leb (e + (d - 53) + 1) (emax - prec));
      [right|left; reflexivity].
    exists 4503599627370496%positive, (e + (d - 53) + 1).
    repeat split; try lia.
Qed.


Lemma compare_cont_Eq p q : Pos.compare_cont Eq p q = Pos.compare p q.
Proof. reflexivity. Qed.

Lemma iter_xO m k : Zpos (Pos.iter xO m k) = Zpos m * 2 ^ Zpos k.
Proof.
  induction k as [|k IH] using Pos.peano_ind.
  - cbn [Pos.iter]. lia.
  - rewrite Pos.iter_succ, Pos2Z.inj_xO, IH, Pos2Z.inj_succ.
    rewrite Z.pow_succ_r by lia. lia.
Qed.

Lemma digits_ge M k :
  0 <= k -> 2 ^ k <= Zpos M -> k + 1 <= Zpos (digits2_pos M).
Proof.
  intros Hk HM.
  pose proof (SFRound.digits2_pos_range M) as [_ Hhi].
  assert (k < Zpos (digits2_pos M)); [|lia].
  apply (Z.pow_lt_mono_r_iff 2); lia.
Qed.

Lemma at_least_round M e l k :
  53 <= Zpos (digits2_pos M) ->
  -1074 <= Zpos (digits2_pos M) + e - 53 ->
  k <= e + Zpos (digits2_pos M) - 1 ->
  at_least k (binary_round_aux prec emax false (Zpos M) e l).
Proof.
  intros Hd Hn Hk.
  destruct (binary_round_aux_large M e l _ eq_refl Hd Hn)
    as [->|(p & e' & -> & Hp & He' & _)]; [left; reflexivity|].
  right. exists p, e'. repeat split; try assumption. lia.
Qed.

(** Conversion of an integer of at least 4. *)
Lemma normalize_at_least n :
  4 <= n -> at_least 2 (binary_normalize prec emax n 0 false).
Proof.
  intros Hn. destruct n as [|np|np]; try lia.
  cbn [binary_normalize]. unfold binary_round.
  pose proof (digits_ge np 2 ltac:(lia) Hn) as Hd.
  pose proof (SFRound.digits2_pos_range np) as Hrange.
  set (d := Zpos (digits2_pos np)) in *.
  rewrite Z.add_0_r, fexp_normal by lia.
  unfold shl_align.
  destruct (d - 53 - 0) as [|sh|sh] eqn:Esh.
  - apply at_least_round; fold d; lia.
  - apply at_least_round; fold d; lia.
  - (* fewer than 53 digits: aligned to exactly 53 *)
    assert (Hsh : Zpos sh = 53 - d) by lia.
    assert (Hdig : Zpos (digits2_pos (Pos.iter xO np sh)) = 53).
    { apply SFRound.digits2_pos_bounds. rewrite iter_xO, Hsh.
      assert (E1 : 2 ^ (53 - 1) = 2 ^ (d - 1) * 2 ^ (53 - d))
        by (rewrite <- Z.pow_add_r by lia; f_equal; lia).
      assert (E2 : 2 ^ 53 = 2 ^ d * 2 ^ (53 - d))
        by (rewrite <- Z.pow_add_r by lia; f_equal; lia).
      assert (0 < 2 ^ (53 - d)) by (apply Z.pow_pos_nonneg; lia).
      rewrite E1, E2.
      split; [apply Z.mul_le_mono_nonneg_r|apply Z.mul_lt_mono_pos_r]; lia. }
    apply at_least_round; rewrite Hdig; lia.
Qed.

(** Product with the double 0.1 of a value of at least 4. *)
Lemma mul_01_at_least a :
  at_least 2 a ->
  at_least (-2) (SF64mul a (S754_finite false 7205759403792794 (-56))).
Proof.
  intros [->|(p & e & -> & Hp & He)]; [left; reflexivity|].
  unfold SF64mul, SFmul. cbn [xorb].
  assert (HM : 2 ^ 104 <= Zpos (p * 7205759403792794)).
  { rewrite Pos2Z.inj_mul.
    change (2 ^ 104) with (2 ^ 52 * 4503599627370496). nia. }
  pose proof (digits_ge _ 104 ltac:(lia) HM) as Hd.
  apply at_least_round; lia.
Qed.

(** Adding a value of at least 0.25 to the double 0.7 gives at least the
    double 0.95. *)
Lemma add_07_not_below b :
  at_least (-2) b ->
  SFltb (SF64add (S754_finite false 6305039478318694 (-53)) b)
        (S754_finite false 8556839292003942 (-53)) = false.
Proof.
  intros [->|(p & e & -> & Hp & He)]; [reflexivity|].
  unfold SF64add, SFadd. cbn [cond_Zopp].
  change (2 ^ 52) with 4503599627370496 in Hp.
  set (ez := Z.min (-53) e).
  set (m1 := fst (shl_align 6305039478318694 (-53) ez)).
  set (m2 := fst (shl_align p e ez)).
  change (Zpos m1 + Zpos m2) with (Zpos (m1 + m2)).
  cbn [binary_normalize]. unfold binary_round.
  assert (Hsum : (ez = -54 /\ 2 * 8556839292003942 <= Zpos (m1 + m2))
                 \/ (ez = -53 /\ 9007199254740992 <= Zpos (m1 + m2))).
  { rewrite Pos2Z.inj_add. unfold m1, m2, ez, shl_align.
    destruct (Z_lt_le_dec e (-53)) as [Hlt|Hge].
    - left. assert (e = -54) by lia. subst e.
      change (Z.min (-53) (-54)) with (-54).
      change (-54 - -53) with (-1). change (-54 - -54) with 0.
      cbn [fst Pos.iter]. split; lia.
    - right. rewrite Z.min_l by lia. split; [reflexivity|].
      change (-53 - -53) with 0. cbn [fst].
      destruct (-53 - e) as [|sh|sh] eqn:Esh; cbn [fst]; try lia.
      rewrite iter_xO.
      assert (0 < 2 ^ Zpos sh) by (apply Z.pow_pos_nonneg; lia).
      assert (Zpos p <= Zpos p * 2 ^ Zpos sh)
        by (apply Z.le_mul_diag_r; lia).
      lia. }
  clearbody m1 m2 ez.
  set (S := (m1 + m2)%positive) in *.
  pose proof (SFRound.digits2_pos_range S) as Hrange.
  assert (Hd : 54 <= Zpos (digits2_pos S)).
  { apply (digits_ge S 53); [lia|].
    change (2 ^ 53) with 9007199254740992.
    destruct Hsum as [[_ H]|[_ H]]; lia. }
  set (d := Zpos (digits2_pos S)) in *.
  assert (Hez : ez = -54 \/ ez = -53) by (destruct Hsum; tauto).
  rewrite fexp_normal by lia.
  unfold shl_align.
  destruct (d + ez - 53 - ez) as [|sh|sh] eqn:Esh; try lia.
  destruct (binary_round_aux_large S ez loc_Exact d eq_refl
              ltac:(lia) ltac:(lia))
    as [->|(q & e' & -> & Hq & He' & Hval)]; [reflexivity|].
  change (2 ^ 52) with 4503599627370496 in Hq.
  unfold SFltb. cbn [SFcompare].
  assert (He'' : -53 <= e') by (clear Hval Hrange Hsum; lia).
  destruct (Z.compare_spec e' (-53)) as [He53|Hlt|Hgt];
    [|clear Hval Hrange Hsum; lia|reflexivity].
  rewrite compare_cont_Eq.
  destruct (Pos.compare_spec q 8556839292003942) as [|Hq'|];
    try reflexivity.
  exfalso. apply Pos2Z.pos_lt_pos in Hq'.
  (* e' = -53 forces ez = -54 and d = 54 *)
  destruct Hsum as [[Hz HS]|[Hz HS]]; [|clear Hval Hrange; lia].
  assert (Hd54 : d = 54) by (clear Hval Hrange; lia).
  specialize (Hval ltac:(clear Hval Hrange; lia)) as [Hval _].
  rewrite Hd54 in Hval.
  change (2 ^ (54 - 53)) with 2 in Hval.
  assert (8556839292003942 <= Zpos S / 2)
    by (apply Z.div_le_lower_bound; clear Hval Hrange; lia).
  clear Hrange. lia.
Qed.

End SFLarge.

Module SFTie.
#[local] Open Scope Z_scope.

Lemma SFleb_same_exp p q e :
  Zpos p <= Zpos q ->
  SFleb (S754_finite false p e) (S754_finite false q e) = true.
Proof.
  intros H. unfold SFleb. cbn [SFcompare].
  rewrite Z.compare_refl, SFLarge.compare_cont_Eq.
  destruct (Pos.compare_spec p q); try reflexivity. lia.
Qed.

Lemma SFltb_same_exp p q e :
  Zpos p < Zpos q ->
  SFltb (S754_finite false p e) (S754_finite false q e) = true.
Proof.
  intros H. unfold SFltb. cbn [SFcompare].
  rewrite Z.compare_refl, SFLarge.compare_cont_Eq.
  destruct (Pos.compare_spec p q); try reflexivity; lia.
Qed.

(** The product of a double in (0.8, 1) with the double 0.85: exponent
    -53, and a mantissa between that of 0.68 and that of 0.85, below the
    mantissa of the factor. *)
Lemma SFmul_085_range m :
  7205759403792794 < Zpos m < 9007199254740992 ->
  exists p,
    SF64mul (S754_finite false m (-53))
            (S754_finite false 7656119366529843 (-53))
    = S754_finite false p (-53)
    /\ 6124895493223875 <= Zpos p <= 7656119366529843
    /\ Zpos p < Zpos m.
Proof.
  intros Hm.
  destruct (SFRound.SFmul_085 m Hm) as [p Hp].
  exists p. split; [exact Hp|].
  unfold SF64mul, SFmul in Hp. cbn [xorb] in Hp.
  set (M := (m * 7656119366529843)%positive) in *.
  assert (HM : 2 ^ (106 - 1) <= Zpos M < 2 ^ 106).
  { unfold M. rewrite Pos2Z.inj_mul.
    change (2 ^ (106 - 1)) with 40564819207303340847894502572032.
    change (2 ^ 106) with 81129638414606681695789005144064. lia. }
  assert (Hd : Zpos (digits2_pos M) = 106)
    by (apply SFRound.digits2_pos_bounds; exact HM).
  destruct (SFLarge.binary_round_aux_large M (-53 + -53) loc_Exact 106 Hd
              ltac:(lia) ltac:(lia))
    as [Hinf|(p' & e' & Hfin & _ & _ & Hval)];
    [rewrite Hinf in Hp; discriminate Hp|].
  rewrite Hfin in Hp. injection Hp as -> ->.
  specialize (Hval eq_refl).
  change (2 ^ (106 - 53)) with 9007199254740992 in Hval.
  clear HM Hd Hfin.
  assert (Hlo : 6124895493223875 <= Zpos M / 9007199254740992).
  { apply Z.div_le_lower_bound; [lia|].
    unfold M. rewrite Pos2Z.inj_mul. lia. }
  assert (Hhi : Zpos M / 9007199254740992 < 7656119366529843).
  { apply Z.div_lt_upper_bound; [lia|].
    unfold M. rewrite Pos2Z.inj_mul. lia. }
  assert (Hm' : Zpos M / 9007199254740992 < Zpos m - 1).
  { apply Z.div_lt_upper_bound; [lia|].
    unfold M. rewrite Pos2Z.inj_mul. lia. }
  lia.
Qed.

End SFTie.

Module TieFacts.

#[local] Open Scope float_scope.

Lemma Prim2SF_068 :
  Prim2SF 0.68 = S754_finite false 6124895493223875 (-53).
Proof. reflexivity. Qed.

Lemma tie_break_confidence_range (c : float) :
  (0.8 <? c) = true -> (c <=? 1) = true ->
  (0.68 <=? c * 0.85) = true
  /\ (c * 0.85 <=? 0.85) = true
  /\ (c * 0.85 <? c) = true.
Proof.
  intros Hlt Hle.
  rewrite FloatAxioms.ltb_spec, FloatBounds.Prim2SF_08 in Hlt.
  rewrite FloatAxioms.leb_spec, FloatBounds.Prim2SF_1 in Hle.
  destruct (SFRound.unit_upper_shape _ (Prim2SF_valid c) Hlt Hle)
    as [H1|[m [Hc Hm]]].
  - rewrite <- FloatBounds.Prim2SF_1 in H1. apply Prim2SF_inj in H1.
    subst c. repeat split.
  - change (2 ^ 53)%Z with 9007199254740992%Z in Hm.
    destruct (SFTie.SFmul_085_range m Hm) as (p & Hp & Hrange & Hpm).
    rewrite !FloatAxioms.leb_spec, FloatAxioms.ltb_spec,
      FloatAxioms.mul_spec, Hc, FloatBounds.Prim2SF_085, Prim2SF_068, Hp.
    split; [apply SFTie.SFleb_same_exp; lia|].
    split; [apply SFTie.SFleb_same_exp; lia|].
    apply SFTie.SFltb_same_exp; lia.
Qed.

End TieFacts.

Module Saturation.

Import Notions.

#[local] Open Scope float_scope.

Lemma Prim2SF_095 :
  Prim2SF 0.95 = S754_finite false 8556839292003942 (-53).
Proof. reflexivity. Qed.

Lemma float_of_int_spec n :
  (Z.of_nat n < 9223372036854775808)%Z ->
  Prim2SF (PyNum.float_of_int n)
  = binary_normalize prec emax (Z.of_nat n) 0 false.
Proof.
  intros Hn. unfold PyNum.float_of_int.
  rewrite of_uint63_spec, Uint63.of_Z_spec, Z.mod_small; [reflexivity|].
  change wB with 9223372036854775808%Z. lia.
Qed.

Lemma sum_not_below n :
  (3 <= n)%nat -> (Z.of_nat n < 9223372036854775808)%Z ->
  (0.7 + PyNum.float_of_int n * 0.1 <? 0.95) = false.
Proof.
  intros H3 Hn.
  destruct (Nat.eq_dec n 3%nat) as [->|Hne]; [reflexivity|].
  rewrite FloatAxioms.ltb_spec, FloatAxioms.add_spec, FloatAxioms.mul_spec.
  rewrite float_of_int_spec by exact Hn.
  rewrite FloatBounds.Prim2SF_07, FloatBounds.Prim2SF_01, Prim2SF_095.
  apply SFLarge.add_07_not_below, SFLarge.mul_01_at_least,
    SFLarge.normalize_at_least.
  lia.
Qed.

Lemma evidence_confidence_values (n : nat) :
  (Z.of_nat n < 9223372036854775808)%Z ->
  evidence_confidence n
  = match n with
    | 0%nat => 0.7
    | 1%nat => 0.7999999999999999
    | 2%nat => 0.8999999999999999
    | _ => 0.95
    end.
Proof.
  intros Hn. destruct n as [|[|[|n]]]; try reflexivity.
  unfold evidence_confidence, PyNum.min.
  rewrite sum_not_below by (assumption || lia). reflexivity.
Qed.

End Saturation.

(** ** The confidences [synthesize] can return *)

Module ConfidenceFacts.

Import Notions SynthesisService.

#[local] Open Scope float_scope.

Lemma majority_confidence ml_prediction c fcs :
  false_count fcs <> true_count fcs ->
  confidence (synthesize ml_prediction c fcs)
  = evidence_confidence (Nat.max (false_count fcs) (true_count fcs)).
Proof.
  intros Hne. unfold synthesize.
  destruct fcs as [|fc l]; [exfalso; apply Hne; reflexivity|].
  revert Hne.
  generalize (false_count (fc :: l)) (true_count (fc :: l)). intros f t Hne.
  destruct (Nat.ltb_spec t f) as [Hlt|Hge].
  - replace (Nat.ltb 0 f) with true by (symmetry; apply Nat.ltb_lt; lia).
    rewrite Nat.max_l by lia. reflexivity.
  - replace (Nat.ltb f t) with true by (symmetry; apply Nat.ltb_lt; lia).
    replace (Nat.ltb 0 t) with true by (symmetry; apply Nat.ltb_lt; lia).
    rewrite Nat.max_r by lia. reflexivity.
Qed.

Lemma count_bound fcs :
  (Z.of_nat (List.length fcs) < 9223372036854775808)%Z ->
  (Z.of_nat (Nat.max (false_count fcs) (true_count fcs))
   < 9223372036854775808)%Z.
Proof.
  intros H.
  pose proof (TallyFacts.sum_1_if_le_length (any_rating false_ratings) fcs).
  pose proof (TallyFacts.sum_1_if_le_length (any_rating true_ratings) fcs).
  unfold false_count, true_count. lia.
Qed.

(** When the counts differ the confidence takes one of three values,
    decided by the larger count: 0.7999999999999999 for one rating,
    0.8999999999999999 for two, and exactly 0.95 for three or more (for
    every list shorter than 2^63, the longest a list can be). *)
Theorem majority_confidence_values
    (ml_prediction : string) (c : float) (fcs : list fact_check) :
  false_count fcs <> true_count fcs ->
  (Z.of_nat (List.length fcs) < 9223372036854775808)%Z ->
  let n := Nat.max (false_count fcs) (true_count fcs) in
  let k := confidence (synthesize ml_prediction c fcs) in
  (n = 1%nat -> k = 0.7999999999999999)
  /\ (n = 2%nat -> k = 0.8999999999999999)
  /\ ((3 <= n)%nat -> k = 0.95).
Proof.
  intros Hne Hlen n k. unfold k.
  rewrite (majority_confidence _ _ _ Hne). fold n.
  rewrite Saturation.evidence_confidence_values by (apply count_bound, Hlen).
  repeat split.
  - intros ->. reflexivity.
  - intros ->. reflexivity.
  - intros H. destruct n as [|[|[|n']]]; try lia. reflexivity.
Qed.

Lemma majority_confidence_values_witness :
  let fcs := [Tally.rated "False"; Tally.rated "Pants on fire";
              Tally.rated "Mostly false"; Tally.rated "True"] in
  let n := Nat.max (false_count fcs) (true_count fcs) in
  let k := confidence (synthesize "REAL" 0.99 fcs) in
  (n = 1%nat -> k = 0.7999999999999999)
  /\ (n = 2%nat -> k = 0.8999999999999999)
  /\ ((3 <= n)%nat -> k = 0.95).
Proof.
  apply majority_confidence_values.
  - vm_compute. lia.
  - vm_compute. reflexivity.
Defined.

Lemma evidence_confidence_mono n m :
  (n <= m)%nat -> (Z.of_nat m < 9223372036854775808)%Z ->
  (evidence_confidence n <=? evidence_confidence m) = true.
Proof.
  intros Hnm Hm.
  rewrite !Saturation.evidence_confidence_values by lia.
  destruct n as [|[|[|n]]], m as [|[|[|m]]]; try lia; reflexivity.
Qed.

(** Monotonicity: of two evidence lists with a false majority, the one
    with at least as many false ratings gets at least the confidence of
    the other. *)
Theorem false_majority_monotone
    (ml_prediction ml_prediction' : string) (c c' : float)
    (fcs fcs' : list fact_check) :
  (true_count fcs < false_count fcs)%nat ->
  (true_count fcs' < false_count fcs')%nat ->
  (false_count fcs <= false_count fcs')%nat ->
  (Z.of_nat (List.length fcs') < 9223372036854775808)%Z ->
  (confidence (synthesize ml_prediction c fcs)
   <=? confidence (synthesize ml_prediction' c' fcs')) = true.
Proof.
  intros H H' Hle Hlen.
  rewrite !majority_confidence by lia.
  rewrite !Nat.max_l by lia.
  apply evidence_confidence_mono; [exact Hle|].
  pose proof (count_bound fcs' Hlen). lia.
Qed.

Lemma false_majority_monotone_witness :
  (confidence (synthesize "REAL" 0.9 [Tally.rated "False"])
   <=? confidence
         (synthesize "FAKE" 0.6
            [Tally.rated "False"; Tally.rated "True";
             Tally.rated "Mostly false"])) = true.
Proof.
  apply false_majority_monotone.
  - vm_compute. lia.
  - vm_compute. lia.
  - vm_compute. lia.
  - vm_compute. reflexivity.
Defined.

(** Rule 3 lowers the model's confidence: for evidence with equal counts
    and a model confidence in (0.8, 1], the confidence returned is below
    the model's and lies between 0.68 and 0.85. *)
Theorem tie_break_lowers_confidence
    (ml_prediction : string) (c : float) (fcs : list fact_check) :
  fcs <> [] ->
  false_count fcs = true_count fcs ->
  (0.8 <? c) = true -> (c <=? 1) = true ->
  let k := confidence (synthesize ml_prediction c fcs) in
  k = c * 0.85
  /\ (0.68 <=? k) = true /\ (k <=? 0.85) = true /\ (k <? c) = true.
Proof.
  intros Hne Heq Hlt Hle k.
  assert (Hk : k = c * 0.85).
  { unfold k, synthesize. destruct fcs as [|fc l]; [congruence|].
    rewrite Heq, Nat.ltb_irrefl, Nat.eqb_refl, Hlt. reflexivity. }
  split; [exact Hk|]. rewrite Hk.
  apply TieFacts.tie_break_confidence_range; assumption.
Qed.

Lemma tie_break_lowers_confidence_witness :
  let k :=
    confidence
      (synthesize "REAL" 0.9 [Tally.rated "True"; Tally.rated "False"]) in
  k = 0.9 * 0.85
  /\ (0.68 <=? k) = true /\ (k <=? 0.85) = true /\ (k <? 0.9) = true.
Proof.
  apply (tie_break_lowers_confidence "REAL" 0.9
           [Tally.rated "True"; Tally.rated "False"]);
    try reflexivity.
  discriminate.
Defined.

End ConfidenceFacts.
